(** * PDF & Image Converter (app.py): a shallow embedding and its properties

    The program is a Streamlit page around two helper functions,
    [pdf_to_images] (PyMuPDF renders every page, Pillow encodes it) and
    [images_to_pdf] (Pillow decodes every upload and writes one PDF).
    Both are sequences of library calls inside [try]/[except] blocks that
    report through [st.error]/[st.warning] and return [None] on failure.

    The libraries are not part of the program.  They are an environment
    [Env] of functions that either return a value or raise; the program is
    written once over every environment, in a monad that threads the page's
    observable state (the Streamlit calls made so far, the number of open
    document handles) and Python exceptions. *)

From Stdlib Require Import List String Ascii ZArith QArith Lia Bool Arith.
From Stdlib Require Import Sorted Permutation Decimal DecimalString.
Import ListNotations.
Close Scope Q_scope.
Open Scope string_scope.

(** ** Values *)

Definition bytes := list Byte.byte.

(** The text of a Python exception. *)
Definition Exn := string.

(** A library call returns or raises. *)
Inductive Result (A : Type) : Type :=
| Ok (a : A)
| Raise (e : Exn).
Arguments Ok {A} a.
Arguments Raise {A} e.

Definition bindR {A B} (r : Result A) (k : A -> Result B) : Result B :=
  match r with
  | Ok a => k a
  | Raise e => Raise e
  end.

(** [fitz.Matrix(dpi / 72, dpi / 72)]: the two scale factors.  Python's
    true division is kept exact, as a rational. *)
Record Matrix := { scale_x : Q; scale_y : Q }.

(** [dpi / 72] on a Python int is the quotient rounded to the nearest
    float, and raises OverflowError when that is beyond the largest float:
    when [|dpi| / 72 >= 2^1024 - 2^970]. *)
Definition division_overflows (dpi : Z) : bool :=
  (72 * (2 ^ 1024 - 2 ^ 970) <=? Z.abs dpi)%Z.

Definition OverflowError : Exn :=
  "integer division result too large for a float".

(** [fitz.Pixmap]: the fields the program reads. *)
Record Pixmap := { pix_width : Z; pix_height : Z; pix_samples : bytes }.

(** [str.lower()] on the ASCII range; the two literals it is compared with
    are ASCII, and no character outside ASCII lowers to one of their
    letters. *)
Definition lower_ascii (c : ascii) : ascii :=
  let n := nat_of_ascii c in
  if (65 <=? n)%nat && (n <=? 90)%nat then ascii_of_nat (n + 32) else c.

Fixpoint lower (s : string) : string :=
  match s with
  | EmptyString => EmptyString
  | String c rest => String (lower_ascii c) (lower rest)
  end.

(** [f"{n}"] for a non-negative integer. *)
Definition str_of_nat (n : nat) : string :=
  NilEmpty.string_of_uint (Nat.to_uint n).

(** ** The libraries *)

Record Env := {
  Document : Type;
  Page : Type;
  Image : Type;
  (* PyMuPDF *)
  fitz_open : bytes -> Result Document;          (* fitz.open(stream=..., filetype="pdf") *)
  doc_len : Document -> nat;                     (* len(pdf_doc) *)
  load_page : Document -> nat -> Result Page;    (* pdf_doc.load_page(page_num) *)
  get_pixmap : Page -> Matrix -> Result Pixmap;  (* page.get_pixmap(matrix=...) *)
  (* Pillow *)
  Image_frombytes : string -> Z * Z -> bytes -> Result Image;
  Image_open : bytes -> Result Image;
  img_mode : Image -> string;                    (* img.mode *)
  img_convert : Image -> string -> Result Image; (* img.convert(mode) *)
  save_png : Image -> Result bytes;              (* img.save(buf, format="PNG") *)
  save_jpeg : Image -> Z -> Result bytes;        (* img.save(buf, format="JPEG", quality=q) *)
  (* ImageSequence.Iterator(img): the frames of the image, the image
     itself alone when it is a still image *)
  img_frames : Image -> list Image;
  (* img.save(buf, "PDF", save_all=True, append_images=...): the exception
     it raises on this list of images, if any, be it on a mode it cannot
     write or on pixel data it cannot load *)
  save_pdf_raises : list Image -> option Exn
}.

(** What Pillow's PDF writer produces with [save_all=True], read back as a
    document: the resolution tag and one page per frame of every image
    handed to it, the image [save] was called on first, then
    [append_images] in order. *)
Record PdfFile (E : Env) := {
  pdf_resolution : Q;
  pdf_pages : list (Image E)
}.
Arguments pdf_resolution {E} _.
Arguments pdf_pages {E} _.

Definition save_pdf {E : Env} (first : Image E) (resolution : Q)
    (append_images : list (Image E)) : Result (PdfFile E) :=
  match save_pdf_raises E (first :: append_images) with
  | Some e => Raise e
  | None => Ok {| pdf_resolution := resolution;
                  pdf_pages := flat_map (img_frames E) (first :: append_images) |}
  end.

(** A Streamlit [UploadedFile]. *)
Record UploadedFile := { name : string; content : bytes }.

(** ** What the page shows, and the state a call runs in *)

(** The message templates of app.py, each with the values it interpolates. *)
Inductive Text : Type :=
| UnsupportedFormat (output_format : string)  (* line 55 *)
| PdfProcessingFailed (e : Exn)               (* line 63 *)
| NeedAtLeastOneImage                         (* line 80 *)
| CannotReadImage (file_name : string) (e : Exn) (* line 99 *)
| NoImageRead                                 (* line 104 *)
| MergeRaised (e : Exn)                       (* line 120 *)
| PreparingMerge (count : nat)                (* line 217 *)
| MergeOrderHeading                           (* line 219 *)
| MergeSucceeded                              (* line 227 *)
| MergeFailed                                 (* line 236 *)
| UploadImagesFirst.                          (* line 239 *)

Inductive UiCall (E : Env) : Type :=
| st_error (t : Text)
| st_warning (t : Text)
| st_info (t : Text)
| st_write (t : Text)
| st_json (names : list string)
| st_success (t : Text)
| st_download_button (data : PdfFile E) (file_name : string).
Arguments st_error {E} t.
Arguments st_warning {E} t.
Arguments st_info {E} t.
Arguments st_write {E} t.
Arguments st_json {E} names.
Arguments st_success {E} t.
Arguments st_download_button {E} data file_name.

Record World (E : Env) := {
  ui : list (UiCall E);      (* Streamlit calls so far, oldest first *)
  open_documents : nat       (* fitz documents opened and not yet closed *)
}.
Arguments ui {E} _.
Arguments open_documents {E} _.

(** ** The monad: state that survives a raise *)

Definition M (E : Env) (A : Type) : Type := World E -> Result A * World E.

Definition ret {E A} (a : A) : M E A := fun w => (Ok a, w).

Definition bind {E A B} (m : M E A) (k : A -> M E B) : M E B :=
  fun w =>
    match m w with
    | (Ok a, w') => k a w'
    | (Raise e, w') => (Raise e, w')
    end.

Definition lift {E A} (r : Result A) : M E A := fun w => (r, w).

(** [try: body / except Exception as e: handler]. *)
Definition try_except {E A} (body : M E A) (handler : Exn -> M E A) : M E A :=
  fun w =>
    match body w with
    | (Ok a, w') => (Ok a, w')
    | (Raise e, w') => handler e w'
    end.

(** The world after one more Streamlit call. *)
Definition shown {E} (w : World E) (c : UiCall E) : World E :=
  {| ui := ui w ++ [c]; open_documents := open_documents w |}.

Definition show {E} (c : UiCall E) : M E unit :=
  fun w => (Ok tt, shown w c).

Declare Scope py_scope.
Delimit Scope py_scope with py.
Notation "x <- m ;; k" := (bind m (fun x => k))
  (at level 61, m at next level, right associativity) : py_scope.
Notation "m ;;; k" := (bind m (fun _ => k))
  (at level 61, right associativity) : py_scope.
Open Scope py_scope.

(** The world after a document was opened, and after one was closed. *)
Definition opened {E} (w : World E) : World E :=
  {| ui := ui w; open_documents := S (open_documents w) |}.

Definition closed {E} (w : World E) : World E :=
  {| ui := ui w; open_documents := pred (open_documents w) |}.

(** ** pdf_to_images (lines 17-64) *)

(** Line 33: [fitz.Matrix(dpi / 72, dpi / 72)], when the division
    returns. *)
Definition zoom_matrix_of (dpi : Z) : Matrix :=
  {| scale_x := (inject_Z dpi / 72)%Q; scale_y := (inject_Z dpi / 72)%Q |}.

(** Line 33 as a statement of the [try] block: the division can raise. *)
Definition zoom_matrix_for (dpi : Z) : Result Matrix :=
  if division_overflows dpi then Raise OverflowError
  else Ok (zoom_matrix_of dpi).

Section Rasterizer.
Variable E : Env.

(** [fitz.open]: on success the caller holds one more open document. *)
Definition open_pdf (pdf_bytes : bytes) : M E (Document E) :=
  fun w =>
    match fitz_open E pdf_bytes with
    | Ok d => (Ok d, opened w)
    | Raise e => (Raise e, w)
    end.

(** [pdf_doc.close()]. *)
Definition close_pdf (pdf_doc : Document E) : M E unit :=
  fun w => (Ok tt, closed w).

(** Lines 36-41: load the page, render it, wrap the samples. *)
Definition render_page (pdf_doc : Document E) (zoom_matrix : Matrix)
    (page_num : nat) : Result (Image E) :=
  bindR (load_page E pdf_doc page_num) (fun page =>
  bindR (get_pixmap E page zoom_matrix) (fun pix =>
  Image_frombytes E "RGB" (pix_width pix, pix_height pix) (pix_samples pix))).

(** Lines 44-46. *)
Definition encode_png (img : Image E) (page_num : nat) : Result (string * bytes) :=
  bindR (save_png E img) (fun img_bytes =>
  Ok ("page_" ++ str_of_nat (page_num + 1) ++ ".png", img_bytes)).

(** Lines 49-53. *)
Definition encode_jpg (img : Image E) (page_num : nat) : Result (string * bytes) :=
  bindR (if img_mode E img =? "RGBA" then img_convert E img "RGB" else Ok img)
    (fun img =>
  bindR (save_jpeg E img 95) (fun img_bytes =>
  Ok ("page_" ++ str_of_nat (page_num + 1) ++ ".jpg", img_bytes))).

(** How one iteration of the loop ends. *)
Inductive Step : Type :=
| Appended (entry : string * bytes)   (* line 58, on to the next page *)
| ReturnedNone.                       (* line 56 *)

(** The loop body, lines 36-58. *)
Definition convert_page (pdf_doc : Document E) (output_format : string)
    (zoom_matrix : Matrix) (page_num : nat) : M E Step :=
  img <- lift (render_page pdf_doc zoom_matrix page_num) ;;
  if lower output_format =? "png" then
    entry <- lift (encode_png img page_num) ;;
    ret (Appended entry)
  else if lower output_format =? "jpg" then
    entry <- lift (encode_jpg img page_num) ;;
    ret (Appended entry)
  else
    show (st_error (UnsupportedFormat output_format)) ;;;
    ret ReturnedNone.

(** [for page_num in range(len(pdf_doc))], over the page numbers still to
    do; [None] is the [return None] of line 56, [Some images] the list
    when the loop runs out. *)
Fixpoint for_pages (pdf_doc : Document E) (output_format : string)
    (zoom_matrix : Matrix) (page_nums : list nat)
    (images : list (string * bytes)) : M E (option (list (string * bytes))) :=
  match page_nums with
  | [] => ret (Some images)
  | page_num :: rest =>
      step <- convert_page pdf_doc output_format zoom_matrix page_num ;;
      match step with
      | Appended entry =>
          for_pages pdf_doc output_format zoom_matrix rest (images ++ [entry])%list
      | ReturnedNone => ret None
      end
  end.

Definition pdf_to_images (pdf_bytes : bytes) (output_format : string)
    (dpi : Z) : M E (option (list (string * bytes))) :=
  try_except
    (pdf_doc <- open_pdf pdf_bytes ;;
     zoom_matrix <- lift (zoom_matrix_for dpi) ;;
     done <- for_pages pdf_doc output_format zoom_matrix
               (seq 0 (doc_len E pdf_doc)) [] ;;
     match done with
     | Some images =>
         close_pdf pdf_doc ;;;
         ret (Some images)
     | None => ret None
     end)
    (fun e =>
       show (st_error (PdfProcessingFailed e)) ;;;
       ret None).

End Rasterizer.


(** ** images_to_pdf (lines 67-121) *)

Section Assembler.
Variable E : Env.

(** Lines 88-95: open the upload and bring the three modes the program
    names to RGB; every other mode is passed on as it is. *)
Definition read_image (uploaded_file : UploadedFile) : Result (Image E) :=
  bindR (Image_open E (content uploaded_file)) (fun img =>
  if img_mode E img =? "RGBA" then img_convert E img "RGB"
  else if img_mode E img =? "P" then img_convert E img "RGB"
  else if img_mode E img =? "L" then img_convert E img "RGB"
  else Ok img).

(** [for uploaded_file in image_files] with its inner [try]/[except]
    (lines 86-101): a file that raises is reported and left out. *)
Fixpoint for_files (image_files : list UploadedFile)
    (pil_images : list (Image E)) : M E (list (Image E)) :=
  match image_files with
  | [] => ret pil_images
  | uploaded_file :: rest =>
      pil_images' <-
        try_except
          (img <- lift (read_image uploaded_file) ;;
           ret (pil_images ++ [img])%list)
          (fun e =>
             show (st_error (CannotReadImage (name uploaded_file) e)) ;;;
             ret pil_images) ;;
      for_files rest pil_images'
  end.

Definition images_to_pdf (image_files : list UploadedFile)
    (output_filename : string) : M E (option (PdfFile E)) :=
  match image_files with
  | [] =>
      show (st_warning NeedAtLeastOneImage) ;;;
      ret None
  | _ :: _ =>
      try_except
        (pil_images <- for_files image_files [] ;;
         match pil_images with
         | [] =>
             show (st_error NoImageRead) ;;;
             ret None
         | first :: others =>
             pdf <- lift (save_pdf first 100 others) ;;
             ret (Some pdf)
         end)
        (fun e =>
           show (st_error (MergeRaised e)) ;;;
           ret None)
  end.

(** ** The "images to PDF" tab (lines 212-239) *)

(** [list.sort(key=lambda f: f.name)]: a stable sort on the name, names
    compared as Python compares [str], character by character. *)
Fixpoint insert_by_name (f : UploadedFile) (sorted : list UploadedFile)
    : list UploadedFile :=
  match sorted with
  | [] => [f]
  | g :: rest =>
      if String.leb (name f) (name g) then f :: g :: rest
      else g :: insert_by_name f rest
  end.

Fixpoint sort_by_name (files : list UploadedFile) : list UploadedFile :=
  match files with
  | [] => []
  | f :: rest => insert_by_name f (sort_by_name rest)
  end.

Definition tab2 (convert_images_button : bool)
    (uploaded_images : list UploadedFile) (output_pdf_name : string)
    : M E unit :=
  match convert_images_button, uploaded_images with
  | true, _ :: _ =>
      let uploaded_images := sort_by_name uploaded_images in
      show (st_info (PreparingMerge (List.length uploaded_images))) ;;;
      show (st_write MergeOrderHeading) ;;;
      show (st_json (map name uploaded_images)) ;;;
      pdf_bytes <- images_to_pdf uploaded_images output_pdf_name ;;
      match pdf_bytes with
      | Some pdf =>
          show (st_success MergeSucceeded) ;;;
          show (st_download_button pdf output_pdf_name)
      | None => show (st_error MergeFailed)
      end
  | true, [] => show (st_warning UploadImagesFirst)
  | false, _ => ret tt
  end.

(** The PDFs a run of the page offers for download, oldest first. *)
Fixpoint downloads (calls : list (UiCall E)) : list (PdfFile E) :=
  match calls with
  | [] => []
  | st_download_button data _ :: rest => data :: downloads rest
  | _ :: rest => downloads rest
  end.

(** The diagnostics ([st.error]) among the calls. *)
Fixpoint errors (calls : list (UiCall E)) : list Text :=
  match calls with
  | [] => []
  | st_error t :: rest => t :: errors rest
  | _ :: rest => errors rest
  end.

(** The images of the uploads that can be read, in the order given. *)
Fixpoint readable (image_files : list UploadedFile) : list (Image E) :=
  match image_files with
  | [] => []
  | f :: rest =>
      match read_image f with
      | Ok img => img :: readable rest
      | Raise _ => readable rest
      end
  end.

(** The diagnostics of the uploads that cannot, in the order given. *)
Fixpoint unreadable (image_files : list UploadedFile) : list Text :=
  match image_files with
  | [] => []
  | f :: rest =>
      match read_image f with
      | Ok _ => unreadable rest
      | Raise e => CannotReadImage (name f) e :: unreadable rest
      end
  end.

End Assembler.

Arguments open_pdf {E}.
Arguments close_pdf {E}.
Arguments render_page {E}.
Arguments encode_png {E}.
Arguments encode_jpg {E}.
Arguments convert_page {E}.
Arguments for_pages {E}.
Arguments pdf_to_images {E}.
Arguments read_image {E}.
Arguments for_files {E}.
Arguments images_to_pdf {E}.
Arguments tab2 {E}.
Arguments downloads {E}.
Arguments errors {E}.
Arguments readable {E}.

(** ** The "PDF to images" tab (lines 158-193) *)

(** The archive behind [zipfile.ZipFile(zip_buffer, "w", ZIP_DEFLATED)]:
    its members, in the order [writestr] added them. *)
Definition ZipFile : Type := list (string * bytes).

Definition writestr (zf : ZipFile) (filename : string) (img_bytes : bytes)
    : ZipFile :=
  (zf ++ [(filename, img_bytes)])%list.

(** The Streamlit calls the tab makes itself, after [pdf_to_images] is
    back. *)
Inductive Tab1Call : Type :=
| t1_success (count : nat)                      (* line 164 *)
| t1_download_button (output_format : string)   (* lines 174-180 *)
    (data : ZipFile) (file_name : string)
| t1_subheader                                  (* line 183 *)
| t1_columns (count : nat)                      (* line 184 *)
| t1_image (column : nat) (img_bytes : bytes) (caption : string) (* line 187 *)
| t1_error                                      (* line 190 *)
| t1_warning.                                   (* line 193 *)

(** Lines 169-170: [for filename, img_bytes in image_data: zf.writestr(...)]. *)
Fixpoint write_all (image_data : list (string * bytes)) (zf : ZipFile)
    : ZipFile :=
  match image_data with
  | [] => zf
  | (filename, img_bytes) :: rest =>
      write_all rest (writestr zf filename img_bytes)
  end.

(** Lines 185-187: [for i, (filename, img_bytes) in enumerate(...)], from
    index [i] on; the image goes to column [i % 5]. *)
Fixpoint preview (i : nat) (image_data : list (string * bytes))
    : list Tab1Call :=
  match image_data with
  | [] => []
  | (filename, img_bytes) :: rest =>
      t1_image (i mod 5) img_bytes filename :: preview (S i) rest
  end.

(** [if image_data:] is taken for a list that is not empty. *)
Definition truthy {A} (image_data : option (list A)) : bool :=
  match image_data with
  | Some (_ :: _) => true
  | _ => false
  end.

Section Tab1.
Variable E : Env.
(** [os.path.splitext]. *)
Variable splitext : string -> string * string.

(** The value is the list of the tab's own calls; the calls of
    [pdf_to_images] are in the world, as before.  [st.spinner] only frames
    the call of [pdf_to_images] and is left out, as are the label, MIME type
    and widget key of the download button. *)
Definition tab1 (convert_pdf_button : bool)
    (uploaded_pdf : option UploadedFile) (output_format : string) (dpi : Z)
    : M E (list Tab1Call) :=
  match convert_pdf_button, uploaded_pdf with
  | true, Some uploaded_pdf =>
      let pdf_bytes := content uploaded_pdf in
      image_data <- pdf_to_images pdf_bytes (lower output_format) dpi ;;
      if truthy image_data then
        let images := match image_data with Some l => l | None => [] end in
        let zf := write_all images [] in
        ret ([t1_success (List.length images);
              t1_download_button output_format zf
                (fst (splitext (name uploaded_pdf)) ++ "_images.zip");
              t1_subheader;
              t1_columns 5]
             ++ preview 0 (firstn 5 images))%list
      else ret [t1_error]
  | true, None => ret [t1_warning]
  | false, _ => ret []
  end.

End Tab1.

Arguments tab1 {E}.

(** ** Vocabulary of the statements *)

Definition raises {A} (r : Result A) : bool :=
  match r with
  | Raise _ => true
  | Ok _ => false
  end.

(** The format test of lines 43 and 47. *)
Definition supported (output_format : string) : bool :=
  (lower output_format =? "png") || (lower output_format =? "jpg").

(** The branch of lines 43-53 taken under a supported format. *)
Definition encode {E} (output_format : string) (img : Image E)
    (page_num : nat) : Result (string * bytes) :=
  if lower output_format =? "png" then encode_png img page_num
  else encode_jpg img page_num.

(** The entry of one page under a supported format. *)
Definition page_entry {E} (pdf_doc : Document E) (output_format : string)
    (zoom_matrix : Matrix) (page_num : nat) : Result (string * bytes) :=
  bindR (render_page pdf_doc zoom_matrix page_num) (fun img =>
  encode output_format img page_num).

(** A page fails when rendering it raises, or when encoding it in a
    supported format raises. *)
Definition page_fails {E} (pdf_doc : Document E) (output_format : string)
    (zoom_matrix : Matrix) (page_num : nat) : bool :=
  match render_page pdf_doc zoom_matrix page_num with
  | Raise _ => true
  | Ok img => supported output_format && raises (encode output_format img page_num)
  end.

(** What lines 36-58 make of page [page_num] under a supported format,
    said with the library calls alone: the pair they append. *)
Inductive page_converts (E : Env) (pdf_doc : Document E)
    (output_format : string) (zoom_matrix : Matrix) (page_num : nat)
    : string * bytes -> Prop :=
| converts_png (page : Page E) (pix : Pixmap) (img : Image E)
    (img_bytes : bytes) :
    lower output_format = "png" ->
    load_page E pdf_doc page_num = Ok page ->
    get_pixmap E page zoom_matrix = Ok pix ->
    Image_frombytes E "RGB" (pix_width pix, pix_height pix) (pix_samples pix)
    = Ok img ->
    save_png E img = Ok img_bytes ->
    page_converts E pdf_doc output_format zoom_matrix page_num
      ("page_" ++ str_of_nat (page_num + 1) ++ ".png", img_bytes)
| converts_jpg (page : Page E) (pix : Pixmap) (img rgb : Image E)
    (img_bytes : bytes) :
    lower output_format = "jpg" ->
    load_page E pdf_doc page_num = Ok page ->
    get_pixmap E page zoom_matrix = Ok pix ->
    Image_frombytes E "RGB" (pix_width pix, pix_height pix) (pix_samples pix)
    = Ok img ->
    (if img_mode E img =? "RGBA" then img_convert E img "RGB" else Ok img)
    = Ok rgb ->
    save_jpeg E rgb 95 = Ok img_bytes ->
    page_converts E pdf_doc output_format zoom_matrix page_num
      ("page_" ++ str_of_nat (page_num + 1) ++ ".jpg", img_bytes).

(** An output pair of [pdf_to_images] handed to [images_to_pdf] as an
    upload. *)
Definition as_upload (entry : string * bytes) : UploadedFile :=
  {| name := fst entry; content := snd entry |}.

(** The value a call returns, whatever it did to the page. *)
Definition returned {E A} (run : Result A * World E) : Result A := fst run.

(** The Streamlit calls a run leaves on the page. *)
Definition page_after {E A} (run : Result A * World E) : list (UiCall E) :=
  ui (snd run).

Definition handles_after {E A} (run : Result A * World E) : nat :=
  open_documents (snd run).

(** The failure classes the design document names. *)
Inductive ErrorClass : Type :=
| DocumentOpenError
| UnsupportedFormatError
| PageRenderError
| ImageDecodeError
| NoValidImagesError
| PdfSerializeError.

(** Ascending order of uploads by name. *)
Definition name_le (f g : UploadedFile) : Prop :=
  String.leb (name f) (name g) = true.

(** ** A small environment to run the program in

    A buffer opens as a document when it starts with the byte of '%'; every
    further byte is one page.  A page whose byte is 0 does not render, and
    no page renders at a scale of 500 or more.  An image is a mode and its
    data; an encoded image starts with a byte that tells the mode.  Data
    that start with the byte 7f stand for an image beyond the size Pillow
    opens; data that start with the byte ff stand for an animation with one
    frame per further byte; no data at all stand for a file cut off after
    its header, which opens and cannot be loaded.  The PDF writer refuses
    16-bit greyscale, as Pillow's does, and raises on what it cannot
    load. *)

Module Demo.

Import Byte.

Definition DImage : Type := string * bytes.

Definition d_open (b : bytes) : Result bytes :=
  match b with
  | x25 :: pages => Ok pages
  | _ => Raise "Failed to open stream"
  end.

Definition d_load_page (d : bytes) (n : nat) : Result Byte.byte :=
  match nth_error d n with
  | Some p => Ok p
  | None => Raise "page not in document"
  end.

Definition d_get_pixmap (p : Byte.byte) (m : Matrix) : Result Pixmap :=
  match p with
  | x00 => Raise "cannot render page"
  | _ =>
      if Qle_bool 500 (scale_x m) then Raise "cannot allocate pixmap"
      else Ok {| pix_width := 1; pix_height := 1; pix_samples := [p; p; p] |}
  end.

Definition d_frombytes (mode : string) (size : Z * Z) (samples : bytes)
    : Result DImage :=
  Ok (mode, samples).

Definition mode_of_tag (t : Byte.byte) : option string :=
  match t with
  | x01 => Some "RGB"
  | x02 => Some "RGBA"
  | x03 => Some "P"
  | x04 => Some "L"
  | x05 => Some "LA"
  | x06 => Some "I;16"
  | _ => None
  end.

Definition tag_of_mode (m : string) : Byte.byte :=
  if m =? "RGB" then x01 else if m =? "RGBA" then x02
  else if m =? "P" then x03 else if m =? "L" then x04
  else if m =? "LA" then x05 else x06.

Definition d_image_open (b : bytes) : Result DImage :=
  match b with
  | t :: data =>
      match mode_of_tag t, data with
      | Some _, x7f :: _ => Raise "image size exceeds limit"
      | Some m, _ => Ok (m, data)
      | None, _ => Raise "cannot identify image file"
      end
  | [] => Raise "cannot identify image file"
  end.

Definition d_frames (img : DImage) : list DImage :=
  match snd img with
  | xff :: frames => map (fun b => (fst img, [b])) frames
  | _ => [img]
  end.

(** [convert] returns a still image: of an animation, the first frame. *)
Definition d_convert (img : DImage) (m : string) : Result DImage :=
  Ok (m, match snd img with
         | xff :: b :: _ => [b]
         | data => data
         end).

Definition d_save_png (img : DImage) : Result bytes :=
  Ok (tag_of_mode (fst img) :: snd img).

Definition d_save_jpeg (img : DImage) (quality : Z) : Result bytes :=
  if fst img =? "RGBA" then Raise "cannot write mode RGBA as JPEG"
  else Ok (tag_of_mode (fst img) :: snd img).

Definition d_save_pdf_raises (imgs : list DImage) : option Exn :=
  if existsb (fun img => fst img =? "I;16") imgs
  then Some "cannot save mode I;16"
  else if existsb (fun img => match snd img with [] => true | _ => false end) imgs
  then Some "image file is truncated"
  else None.

Definition env : Env := {|
  Document := bytes;
  Page := Byte.byte;
  Image := DImage;
  fitz_open := d_open;
  doc_len := @List.length Byte.byte;
  load_page := d_load_page;
  get_pixmap := d_get_pixmap;
  Image_frombytes := d_frombytes;
  Image_open := d_image_open;
  img_mode := fst;
  img_convert := d_convert;
  save_png := d_save_png;
  save_jpeg := d_save_jpeg;
  img_frames := d_frames;
  save_pdf_raises := d_save_pdf_raises
|}.

(** A fresh page: nothing shown, no document open. *)
Definition start : World env := {| ui := []; open_documents := 0 |}.

Definition one_page : bytes := [x25; x41].
Definition three_pages : bytes := [x25; x41; x42; x43].
Definition no_page : bytes := [x25].
Definition not_a_pdf : bytes := [x41; x42].
Definition broken_second_page : bytes := [x25; x41; x00; x43].
Definition broken_first_page : bytes := [x25; x00; x41].
Definition huge_second_page : bytes := [x25; x41; x7f; x43].

Definition upload (n : string) (b : bytes) : UploadedFile :=
  {| name := n; content := b |}.

End Demo.


(** [os.path.splitext] as [posixpath] has it: the extension starts at the
    last dot of the part after the last slash, provided a character other
    than a dot comes before that dot in that part; otherwise there is no
    extension. *)
Module DemoTab1.

Fixpoint has_slash (s : string) : bool :=
  match s with
  | EmptyString => false
  | String c rest => Ascii.eqb c "/" || has_slash rest
  end.

(** The name up to and with its last slash, and the rest. *)
Fixpoint split_dir (s : string) : string * string :=
  match s with
  | EmptyString => (EmptyString, EmptyString)
  | String c rest =>
      if has_slash rest then
        let (dir, base) := split_dir rest in (String c dir, base)
      else if Ascii.eqb c "/" then (String c EmptyString, rest)
      else (EmptyString, s)
  end.

Fixpoint cut_at_last_dot (s : string) : option (string * string) :=
  match s with
  | EmptyString => None
  | String c rest =>
      match cut_at_last_dot rest with
      | Some (root, ext) => Some (String c root, ext)
      | None => if Ascii.eqb c "." then Some (EmptyString, s) else None
      end
  end.

Fixpoint only_dots (s : string) : bool :=
  match s with
  | EmptyString => true
  | String c rest => Ascii.eqb c "." && only_dots rest
  end.

Definition splitext (s : string) : string * string :=
  let (dir, base) := split_dir s in
  match cut_at_last_dot base with
  | Some (root, ext) =>
      if only_dots root then (s, EmptyString) else (dir ++ root, ext)
  | None => (s, EmptyString)
  end.

(** The small environment again, with an [img.convert] that raises on
    palette images. *)
Definition d_convert_strict (img : Demo.DImage) (m : string)
    : Result Demo.DImage :=
  if fst img =? "P" then Raise "cannot convert palette image"
  else Ok (m, snd img).

Definition strict_env : Env := {|
  Document := bytes;
  Page := Byte.byte;
  Image := Demo.DImage;
  fitz_open := Demo.d_open;
  doc_len := @List.length Byte.byte;
  load_page := Demo.d_load_page;
  get_pixmap := Demo.d_get_pixmap;
  Image_frombytes := Demo.d_frombytes;
  Image_open := Demo.d_image_open;
  img_mode := fst;
  img_convert := d_convert_strict;
  save_png := Demo.d_save_png;
  save_jpeg := Demo.d_save_jpeg;
  img_frames := Demo.d_frames;
  save_pdf_raises := Demo.d_save_pdf_raises
|}.

Definition strict_start : World strict_env :=
  {| ui := []; open_documents := 0 |}.

Definition empty_pdf : UploadedFile :=
  {| name := "empty.pdf"; content := Demo.no_page |}.

Definition report : UploadedFile :=
  {| name := "report.pdf"; content := Demo.three_pages |}.

Definition seven_pages : UploadedFile :=
  {| name := "long.pdf";
     content := [Byte.x25; Byte.x41; Byte.x42; Byte.x43; Byte.x44;
                 Byte.x45; Byte.x46; Byte.x47] |}.

End DemoTab1.

(** * Properties *)

Open Scope list_scope.

(** ** Strings *)

Lemma lower_ascii_idem (c : ascii) : lower_ascii (lower_ascii c) = lower_ascii c.
Proof.
  destruct c as [[] [] [] [] [] [] [] []]; vm_compute; reflexivity.
Qed.

Lemma lower_idem (s : string) : lower (lower s) = lower s.
Proof.
  induction s as [|c s IH]; simpl; [reflexivity|].
  now rewrite lower_ascii_idem, IH.
Qed.

Lemma supported_lower (output_format : string) :
  supported (lower output_format) = supported output_format.
Proof. unfold supported. now rewrite lower_idem. Qed.

(** ** The page loop *)

Section RasterizerFacts.
Variable E : Env.
Implicit Types (w : World E) (d : Document E) (zoom : Matrix).

Lemma closed_opened w : closed (opened w) = w.
Proof. destruct w; reflexivity. Qed.

Lemma encode_lower output_format (img : Image E) n :
  encode (lower output_format) img n = encode output_format img n.
Proof. unfold encode. now rewrite lower_idem. Qed.

(** The loop body, case by case. *)
Lemma convert_page_eq d output_format zoom n w :
  convert_page d output_format zoom n w =
  match render_page d zoom n with
  | Raise e => (Raise e, w)
  | Ok img =>
      if supported output_format then
        match encode output_format img n with
        | Ok entry => (Ok (Appended entry), w)
        | Raise e => (Raise e, w)
        end
      else (Ok ReturnedNone, shown w (st_error (UnsupportedFormat output_format)))
  end.
Proof.
  unfold convert_page, bind, lift, supported, encode.
  destruct (render_page d zoom n) as [img|e]; [|reflexivity].
  destruct (lower output_format =? "png"); simpl.
  - destruct (encode_png img n); reflexivity.
  - destruct (lower output_format =? "jpg"); simpl; [|reflexivity].
    destruct (encode_jpg img n); reflexivity.
Qed.

Lemma page_entry_ok_not_fails d output_format zoom n entry :
  supported output_format = true ->
  page_entry d output_format zoom n = Ok entry ->
  page_fails d output_format zoom n = false.
Proof.
  unfold page_entry, page_fails, bindR. intros Hs.
  destruct (render_page d zoom n); [|discriminate].
  intros ->. now rewrite Hs.
Qed.

Lemma for_pages_cons d output_format zoom n rest acc w :
  for_pages d output_format zoom (n :: rest) acc w =
  match convert_page d output_format zoom n w with
  | (Ok (Appended entry), w') =>
      for_pages d output_format zoom rest (acc ++ [entry]) w'
  | (Ok ReturnedNone, w') => (Ok None, w')
  | (Raise e, w') => (Raise e, w')
  end.
Proof.
  cbn [for_pages]. unfold bind.
  destruct (convert_page d output_format zoom n w) as [[[entry|]|e] w'];
    reflexivity.
Qed.

(** The three ways the loop can end: every page appended; the format
    refused at the first page reached; an exception from a failing page. *)
Lemma for_pages_outcome d output_format zoom ns acc w :
  (exists entries,
     for_pages d output_format zoom ns acc w = (Ok (Some (acc ++ entries)), w) /\
     Forall2 (fun n entry => page_entry d output_format zoom n = Ok entry) ns entries /\
     (ns <> [] -> supported output_format = true))
  \/ (for_pages d output_format zoom ns acc w =
        (Ok None, shown w (st_error (UnsupportedFormat output_format))) /\
      supported output_format = false)
  \/ (exists e n,
        In n ns /\ page_fails d output_format zoom n = true /\
        for_pages d output_format zoom ns acc w = (Raise e, w)).
Proof.
  revert acc. induction ns as [|n rest IH]; intros acc.
  - left. exists []. rewrite app_nil_r.
    split; [reflexivity|]. split; [constructor | congruence].
  - rewrite for_pages_cons, convert_page_eq.
    destruct (render_page d zoom n) as [img|e] eqn:Hr.
    + destruct (supported output_format) eqn:Hs.
      * destruct (encode output_format img n) as [entry|e] eqn:He.
        -- destruct (IH (acc ++ [entry])) as [(entries & Hrun & Hall & _) | [[Hrun Hno] | (e & m & Hin & Hf & Hrun)]].
           ++ left. exists (entry :: entries). rewrite Hrun, <- app_assoc.
              split; [reflexivity|]. split; [|reflexivity].
              constructor; [|exact Hall].
              unfold page_entry, bindR. now rewrite Hr.
           ++ congruence.
           ++ right; right. exists e, m.
              split; [now right|]. split; [exact Hf | exact Hrun].
        -- right; right. exists e, n.
           split; [now left|]. split; [|reflexivity].
           unfold page_fails. now rewrite Hr, Hs, He.
      * right; left. split; reflexivity.
    + right; right. exists e, n.
      split; [now left|]. split; [|reflexivity].
      unfold page_fails. now rewrite Hr.
Qed.

Lemma pdf_to_images_not_opened pdf_bytes output_format dpi w e :
  fitz_open E pdf_bytes = Raise e ->
  pdf_to_images pdf_bytes output_format dpi w =
  (Ok None, shown w (st_error (PdfProcessingFailed e))).
Proof.
  intros Ho. unfold pdf_to_images, try_except, bind, open_pdf. now rewrite Ho.
Qed.

(** The division of line 33 raises after the document is open: the call
    reports it and returns without closing the document. *)
Lemma pdf_to_images_overflow pdf_bytes output_format dpi w d :
  fitz_open E pdf_bytes = Ok d ->
  division_overflows dpi = true ->
  pdf_to_images pdf_bytes output_format dpi w =
  (Ok None, shown (opened w) (st_error (PdfProcessingFailed OverflowError))).
Proof.
  intros Ho Hov.
  unfold pdf_to_images, try_except, bind, open_pdf, lift, zoom_matrix_for.
  now rewrite Ho, Hov.
Qed.

Lemma pdf_to_images_opened pdf_bytes output_format dpi w d :
  fitz_open E pdf_bytes = Ok d ->
  division_overflows dpi = false ->
  pdf_to_images pdf_bytes output_format dpi w =
  match for_pages d output_format (zoom_matrix_of dpi)
          (seq 0 (doc_len E d)) [] (opened w) with
  | (Ok (Some images), w') => (Ok (Some images), closed w')
  | (Ok None, w') => (Ok None, w')
  | (Raise e, w') => (Ok None, shown w' (st_error (PdfProcessingFailed e)))
  end.
Proof.
  intros Ho Hov.
  unfold pdf_to_images, try_except, bind, open_pdf, lift, zoom_matrix_for.
  rewrite Ho, Hov.
  destruct (for_pages d output_format (zoom_matrix_of dpi)
              (seq 0 (doc_len E d)) [] (opened w)) as [[[images|]|e] w'];
    reflexivity.
Qed.

(** The pair of a page under a supported format, said with the loop's
    functions and said with the library calls, is the same pair. *)
Lemma page_entry_converts d output_format zoom n entry :
  supported output_format = true ->
  page_entry d output_format zoom n = Ok entry <->
  page_converts E d output_format zoom n entry.
Proof.
  intros Hs. unfold supported in Hs.
  unfold page_entry, render_page, encode, encode_png, encode_jpg, bindR.
  split.
  - destruct (load_page E d n) as [page|] eqn:Hl; [|discriminate].
    destruct (get_pixmap E page zoom) as [pix|] eqn:Hp; [|discriminate].
    destruct (Image_frombytes E "RGB" _ _) as [img|] eqn:Hi; [|discriminate].
    destruct (lower output_format =? "png")%string eqn:Hpng.
    + apply String.eqb_eq in Hpng.
      destruct (save_png E img) as [b|] eqn:Hb; [|discriminate].
      intros [= <-]. now apply (converts_png E d _ zoom n page pix img b).
    + cbn in Hs. apply String.eqb_eq in Hs.
      destruct (if (img_mode E img =? "RGBA")%string
                then img_convert E img "RGB" else Ok img) as [rgb|] eqn:Hc;
        [|discriminate].
      destruct (save_jpeg E rgb 95) as [b|] eqn:Hb; [|discriminate].
      intros [= <-]. now apply (converts_jpg E d _ zoom n page pix img rgb b).
  - intros [page pix img b Hlow Hl Hp Hi Hb | page pix img rgb b Hlow Hl Hp Hi Hc Hb];
      rewrite Hl, Hp, Hi, Hlow; cbn.
    + now rewrite Hb.
    + now rewrite Hc, Hb.
Qed.

End RasterizerFacts.

(** ** pdf_to_images *)

Lemma Forall2_nth_error {A B} (P : A -> B -> Prop) (l : list A) (l' : list B) :
  Forall2 P l l' ->
  forall n a, nth_error l n = Some a ->
  exists b, nth_error l' n = Some b /\ P a b.
Proof.
  induction 1 as [|x y l l' Hxy _ IH]; intros [|n] a Hn; try discriminate.
  - injection Hn as <-. now exists y.
  - now apply IH.
Qed.

Lemma nth_error_seq_0 (len n : nat) :
  n < len -> nth_error (seq 0 len) n = Some n.
Proof.
  intros Hn. rewrite (nth_error_nth' _ 0) by now rewrite length_seq.
  now rewrite seq_nth.
Qed.

Section RasterizerClaims.
Variable E : Env.
Implicit Types (w : World E) (d : Document E).

(** The loop does not look at the capitals of a supported format. *)
Lemma for_pages_lower d output_format literal zoom ns acc w :
  supported output_format = true ->
  lower output_format = literal ->
  for_pages d output_format zoom ns acc w = for_pages d literal zoom ns acc w.
Proof.
  intros Hs <-. revert acc. induction ns as [|n rest IH]; intros acc.
  - reflexivity.
  - rewrite !for_pages_cons, !convert_page_eq, supported_lower, Hs.
    destruct (render_page d zoom n) as [img|e]; [|reflexivity].
    rewrite encode_lower.
    destruct (encode output_format img n); [apply IH | reflexivity].
Qed.

(** A call never raises: it hands back a list or [None].  [None] comes
    with exactly one [st.error]; a list comes with nothing shown. *)
Lemma pdf_to_images_reports pdf_bytes output_format dpi w :
  exists r w',
    pdf_to_images pdf_bytes output_format dpi w = (Ok r, w') /\
    match r with
    | None => exists t, ui w' = ui w ++ [st_error t]
    | Some _ => ui w' = ui w
    end.
Proof.
  destruct (fitz_open E pdf_bytes) as [d|e] eqn:Ho.
  - destruct (division_overflows dpi) eqn:Hov.
    { rewrite (pdf_to_images_overflow _ _ _ _ _ _ Ho Hov).
      eexists _, _. split; [reflexivity|]. now eexists. }
    rewrite (pdf_to_images_opened _ _ _ _ _ _ Ho Hov).
    destruct (for_pages_outcome E d output_format (zoom_matrix_of dpi)
                (seq 0 (doc_len E d)) [] (opened w))
      as [(entries & -> & _) | [[-> _] | (e & n & _ & _ & ->)]].
    + eexists _, _. split; [reflexivity|]. reflexivity.
    + eexists _, _. split; [reflexivity|]. now eexists.
    + eexists _, _. split; [reflexivity|]. now eexists.
  - rewrite (pdf_to_images_not_opened _ _ _ _ _ _ Ho).
    eexists _, _. split; [reflexivity|]. now eexists.
Qed.

(** Once the document is open, every [None] leaves it open: [close] is
    reached only on the way to [return images]. *)
Lemma pdf_to_images_none_keeps_document_open pdf_bytes output_format dpi w d :
  fitz_open E pdf_bytes = Ok d ->
  returned (pdf_to_images pdf_bytes output_format dpi w) = Ok None ->
  handles_after (pdf_to_images pdf_bytes output_format dpi w)
  = S (open_documents w).
Proof.
  intros Ho. destruct (division_overflows dpi) eqn:Hov.
  { now rewrite (pdf_to_images_overflow _ _ _ _ _ _ Ho Hov). }
  rewrite (pdf_to_images_opened _ _ _ _ _ _ Ho Hov).
  destruct (for_pages_outcome E d output_format (zoom_matrix_of dpi)
              (seq 0 (doc_len E d)) [] (opened w))
    as [(entries & -> & _) | [[-> _] | (e & n & _ & _ & ->)]];
    cbn; [discriminate | reflexivity | reflexivity].
Qed.

(** When the document opens, the division returns, the format is
    supported and no page fails, the call returns the entry of every page,
    in page order, and leaves the world as it found it. *)
Lemma pdf_to_images_complete pdf_bytes output_format dpi w d :
  fitz_open E pdf_bytes = Ok d ->
  division_overflows dpi = false ->
  supported output_format = true ->
  (forall n, n < doc_len E d ->
     page_fails d output_format (zoom_matrix_of dpi) n = false) ->
  exists images,
    pdf_to_images pdf_bytes output_format dpi w = (Ok (Some images), w) /\
    Forall2 (fun n entry =>
               page_entry d output_format (zoom_matrix_of dpi) n = Ok entry)
            (seq 0 (doc_len E d)) images.
Proof.
  intros Ho Hov Hs Hpages. rewrite (pdf_to_images_opened _ _ _ _ _ _ Ho Hov).
  destruct (for_pages_outcome E d output_format (zoom_matrix_of dpi)
              (seq 0 (doc_len E d)) [] (opened w))
    as [(entries & -> & Hall & _) | [[_ Hno] | (e & n & Hin & Hf & _)]].
  - exists entries. cbn [app]. now rewrite closed_opened.
  - congruence.
  - apply in_seq in Hin. rewrite Hpages in Hf by lia. discriminate.
Qed.

(** The same, said with the library calls: when every page converts, the
    call returns the pair of every page, in page order. *)
Lemma pdf_to_images_converts pdf_bytes output_format dpi w d :
  fitz_open E pdf_bytes = Ok d ->
  division_overflows dpi = false ->
  supported output_format = true ->
  (forall n, n < doc_len E d ->
     exists entry,
       page_converts E d output_format (zoom_matrix_of dpi) n entry) ->
  exists images,
    pdf_to_images pdf_bytes output_format dpi w = (Ok (Some images), w) /\
    List.length images = doc_len E d /\
    forall n, n < doc_len E d ->
      exists entry,
        nth_error images n = Some entry /\
        page_converts E d output_format (zoom_matrix_of dpi) n entry.
Proof.
  intros Ho Hov Hs Hpages.
  destruct (pdf_to_images_complete pdf_bytes output_format dpi w d Ho Hov Hs)
    as (images & Hrun & Hall).
  { intros n Hn. destruct (Hpages n Hn) as (entry & Hentry).
    apply (page_entry_converts E d _ _ _ _ Hs) in Hentry.
    now apply (page_entry_ok_not_fails E _ _ _ _ entry). }
  exists images. split; [exact Hrun|]. split.
  - rewrite <- (Forall2_length Hall). apply length_seq.
  - intros n Hn.
    destruct (Forall2_nth_error _ _ _ Hall n n (nth_error_seq_0 _ _ Hn))
      as (entry & Hnth & Hentry).
    exists entry. split; [exact Hnth|].
    now apply (page_entry_converts E d _ _ _ _ Hs).
Qed.

(** The name of the pair of a page. *)
Lemma page_converts_name d literal zoom n entry :
  literal = "png" \/ literal = "jpg" ->
  page_converts E d literal zoom n entry ->
  fst entry = ("page_" ++ str_of_nat (n + 1) ++ "." ++ literal)%string.
Proof.
  intros [-> | ->] [page pix img b Hlow | page pix img rgb b Hlow];
    try discriminate Hlow; reflexivity.
Qed.

(** C1, as the program has it.  When the buffer opens as a document of N
    pages, the format is "png" or "jpg", the DPI is positive, the division
    of line 33 returns and every page converts at that DPI and in that
    format (no library call of lines 36-53 raises on it), the call returns
    N pairs and leaves the page and the handles as they were; pair number n
    (from 0) is named page_(n+1).<format> and is the pair the library calls
    give for page n of the document. *)
Theorem pdf_to_images_one_pair_per_page pdf_bytes output_format dpi w d :
  fitz_open E pdf_bytes = Ok d ->
  output_format = "png" \/ output_format = "jpg" ->
  (0 < dpi)%Z ->
  division_overflows dpi = false ->
  (forall n, n < doc_len E d ->
     exists entry,
       page_converts E d output_format (zoom_matrix_of dpi) n entry) ->
  exists images,
    pdf_to_images pdf_bytes output_format dpi w = (Ok (Some images), w) /\
    List.length images = doc_len E d /\
    forall n, n < doc_len E d ->
      exists img_bytes,
        nth_error images n
        = Some (("page_" ++ str_of_nat (n + 1) ++ "." ++ output_format)%string,
                img_bytes) /\
        page_converts E d output_format (zoom_matrix_of dpi) n
          (("page_" ++ str_of_nat (n + 1) ++ "." ++ output_format)%string,
           img_bytes).
Proof.
  intros Ho Hfmt _ Hov Hpages.
  assert (Hs : supported output_format = true)
    by (destruct Hfmt as [-> | ->]; reflexivity).
  destruct (pdf_to_images_converts pdf_bytes output_format dpi w d Ho Hov Hs Hpages)
    as (images & Hrun & Hlen & Hnth).
  exists images. split; [exact Hrun|]. split; [exact Hlen|].
  intros n Hn. destruct (Hnth n Hn) as ([fname img_bytes] & Hn' & Hc).
  pose proof (page_converts_name d output_format _ n _ Hfmt Hc) as Hname.
  cbn [fst] in Hname. subst fname. now exists img_bytes.
Qed.

(** C4.  Once the document is open: if any page fails to render or to
    encode, the call returns [None] and shows exactly one error; and a list
    that is returned always has one pair per page, never fewer. *)
Theorem pdf_to_images_all_or_nothing pdf_bytes output_format dpi w d :
  fitz_open E pdf_bytes = Ok d ->
  ((exists n, n < doc_len E d /\
      page_fails d output_format (zoom_matrix_of dpi) n = true) ->
   returned (pdf_to_images pdf_bytes output_format dpi w) = Ok None /\
   exists t,
     page_after (pdf_to_images pdf_bytes output_format dpi w)
     = ui w ++ [st_error t]) /\
  (forall images,
     returned (pdf_to_images pdf_bytes output_format dpi w) = Ok (Some images) ->
     List.length images = doc_len E d).
Proof.
  intros Ho. destruct (division_overflows dpi) eqn:Hov.
  { rewrite (pdf_to_images_overflow _ _ _ _ _ _ Ho Hov).
    split; [intros _ | discriminate]. split; [reflexivity | now eexists]. }
  rewrite (pdf_to_images_opened _ _ _ _ _ _ Ho Hov).
  destruct (for_pages_outcome E d output_format (zoom_matrix_of dpi)
              (seq 0 (doc_len E d)) [] (opened w))
    as [(entries & -> & Hall & Hs) | [[-> _] | (e & n & _ & _ & ->)]].
  - split.
    + intros (n & Hn & Hf). exfalso.
      destruct (Forall2_nth_error _ _ _ Hall n n (nth_error_seq_0 _ _ Hn))
        as (entry & _ & Hentry).
      assert (Hne : seq 0 (doc_len E d) <> [])
        by (destruct (doc_len E d); [lia | discriminate]).
      rewrite (page_entry_ok_not_fails E _ _ _ _ _ (Hs Hne) Hentry) in Hf.
      discriminate.
    + intros images [= <-]. rewrite <- (Forall2_length Hall). apply length_seq.
  - split; [intros _ | discriminate]. split; [reflexivity | now eexists].
  - split; [intros _ | discriminate]. split; [reflexivity | now eexists].
Qed.

(** C7, as the program has it.  When the document opens, has a first page
    and that page renders (the division of line 33 returns and the library
    calls of lines 36-41 do not raise on it), a format whose lower-case form
    is neither "png" nor "jpg" makes the call show the unsupported-format
    error, once, and return [None]. *)
Theorem pdf_to_images_refuses_format pdf_bytes output_format dpi w d img :
  fitz_open E pdf_bytes = Ok d ->
  0 < doc_len E d ->
  division_overflows dpi = false ->
  render_page d (zoom_matrix_of dpi) 0 = Ok img ->
  supported output_format = false ->
  returned (pdf_to_images pdf_bytes output_format dpi w) = Ok None /\
  page_after (pdf_to_images pdf_bytes output_format dpi w)
  = ui w ++ [st_error (UnsupportedFormat output_format)].
Proof.
  intros Ho Hlen Hov Hr Hs. rewrite (pdf_to_images_opened _ _ _ _ _ _ Ho Hov).
  destruct (doc_len E d) as [|k]; [lia|].
  cbn [seq]. rewrite for_pages_cons, convert_page_eq, Hr, Hs.
  split; reflexivity.
Qed.

(** With a supported format the call never shows the unsupported-format
    error. *)
Lemma pdf_to_images_never_refuses pdf_bytes output_format dpi w :
  supported output_format = true ->
  exists calls,
    page_after (pdf_to_images pdf_bytes output_format dpi w) = ui w ++ calls /\
    forall refused, ~ In (st_error (UnsupportedFormat refused)) calls.
Proof.
  intros Hs. unfold page_after.
  destruct (fitz_open E pdf_bytes) as [d|e] eqn:Ho.
  - destruct (division_overflows dpi) eqn:Hov.
    { rewrite (pdf_to_images_overflow _ _ _ _ _ _ Ho Hov).
      eexists. split; [reflexivity|]. intros refused [H | []]. discriminate. }
    rewrite (pdf_to_images_opened _ _ _ _ _ _ Ho Hov).
    destruct (for_pages_outcome E d output_format (zoom_matrix_of dpi)
                (seq 0 (doc_len E d)) [] (opened w))
      as [(entries & -> & _) | [[_ Hno] | (e & n & _ & _ & ->)]].
    + exists []. split; [cbn; now rewrite app_nil_r | intros ? []].
    + congruence.
    + eexists. split; [reflexivity|]. intros refused [H | []]. discriminate.
  - rewrite (pdf_to_images_not_opened _ _ _ _ _ _ Ho).
    eexists. split; [reflexivity|]. intros refused [H | []]. discriminate.
Qed.

(** C10.  A format that lower-cases to "png" or to "jpg" is accepted and
    served as that literal.  The call does exactly what it does for the
    literal: same value, same page, same handles.  It never shows the
    unsupported-format error.  And when the document opens, the division
    of line 33 returns and every page converts in the literal's format, it
    returns one pair per page, pair n named page_(n+1).<literal>, the pair
    the library calls give for page n. *)
Theorem pdf_to_images_format_any_case pdf_bytes output_format literal dpi w :
  literal = "png" \/ literal = "jpg" ->
  lower output_format = literal ->
  pdf_to_images pdf_bytes output_format dpi w
  = pdf_to_images pdf_bytes literal dpi w /\
  (exists calls,
     page_after (pdf_to_images pdf_bytes output_format dpi w) = ui w ++ calls /\
     forall refused, ~ In (st_error (UnsupportedFormat refused)) calls) /\
  (forall d,
     fitz_open E pdf_bytes = Ok d ->
     division_overflows dpi = false ->
     (forall n, n < doc_len E d ->
        exists entry, page_converts E d literal (zoom_matrix_of dpi) n entry) ->
     exists images,
       pdf_to_images pdf_bytes output_format dpi w = (Ok (Some images), w) /\
       List.length images = doc_len E d /\
       forall n, n < doc_len E d ->
         exists img_bytes,
           nth_error images n
           = Some (("page_" ++ str_of_nat (n + 1) ++ "." ++ literal)%string,
                   img_bytes) /\
           page_converts E d literal (zoom_matrix_of dpi) n
             (("page_" ++ str_of_nat (n + 1) ++ "." ++ literal)%string,
              img_bytes)).
Proof.
  intros Hlit Hlow.
  assert (Hs : supported output_format = true).
  { unfold supported. rewrite Hlow. destruct Hlit as [-> | ->]; reflexivity. }
  assert (Hs' : supported literal = true)
    by (destruct Hlit as [-> | ->]; reflexivity).
  assert (Heq : pdf_to_images pdf_bytes output_format dpi w
                = pdf_to_images pdf_bytes literal dpi w).
  { destruct (fitz_open E pdf_bytes) as [d|e] eqn:Ho.
    - destruct (division_overflows dpi) eqn:Hov.
      + now rewrite !(pdf_to_images_overflow _ _ _ _ _ _ Ho Hov).
      + rewrite !(pdf_to_images_opened _ _ _ _ _ _ Ho Hov).
        now rewrite (for_pages_lower d output_format literal).
    - now rewrite !(pdf_to_images_not_opened _ _ _ _ _ _ Ho). }
  split; [exact Heq|]. split; [now apply pdf_to_images_never_refuses|].
  intros d Ho Hov Hpages. rewrite Heq.
  destruct (pdf_to_images_converts pdf_bytes literal dpi w d Ho Hov Hs' Hpages)
    as (images & Hrun & Hlen & Hnth).
  exists images. split; [exact Hrun|]. split; [exact Hlen|].
  intros n Hn. destruct (Hnth n Hn) as ([fname img_bytes] & Hn' & Hc).
  pose proof (page_converts_name d literal _ n _ Hlit Hc) as Hname.
  cbn [fst] in Hname. subst fname. now exists img_bytes.
Qed.

End RasterizerClaims.

(** ** Sorting the uploads by name *)

Lemma string_leb_trans (a b c : string) :
  String.leb a b = true -> String.leb b c = true -> String.leb a c = true.
Proof.
  unfold String.leb. revert b c.
  induction a as [|x a IH]; intros [|y b] [|z c]; cbn; try easy.
  unfold Ascii.compare.
  destruct (N.compare_spec (N_of_ascii x) (N_of_ascii y)),
           (N.compare_spec (N_of_ascii y) (N_of_ascii z)),
           (N.compare_spec (N_of_ascii x) (N_of_ascii z));
    try easy; try (exfalso; lia).
  apply IH.
Qed.

Lemma insert_by_name_perm f l : Permutation (insert_by_name f l) (f :: l).
Proof.
  induction l as [|g l IH]; cbn; [reflexivity|].
  destruct (String.leb (name f) (name g)); [reflexivity|].
  rewrite IH. apply perm_swap.
Qed.

Lemma sort_by_name_perm files : Permutation (sort_by_name files) files.
Proof.
  induction files as [|f files IH]; cbn; [reflexivity|].
  rewrite insert_by_name_perm. now constructor.
Qed.

Lemma insert_by_name_sorted f l :
  Sorted name_le l -> Sorted name_le (insert_by_name f l).
Proof.
  induction 1 as [|g l Hl IH Hhd]; cbn.
  - repeat constructor.
  - destruct (String.leb (name f) (name g)) eqn:Hfg.
    + repeat constructor; assumption.
    + constructor; [exact IH|].
      assert (Hgf : name_le g f).
      { destruct (String.leb_total (name f) (name g)); [congruence | assumption]. }
      destruct Hhd as [|h l Hgh]; cbn.
      * now constructor.
      * destruct (String.leb (name f) (name h)); now constructor.
Qed.

Lemma sort_by_name_sorted files : Sorted name_le (sort_by_name files).
Proof.
  induction files as [|f files IH]; cbn; [constructor|].
  now apply insert_by_name_sorted.
Qed.

(** Two uploads with different names can be inserted in either order. *)
Lemma insert_by_name_comm f g l :
  name f <> name g ->
  insert_by_name f (insert_by_name g l) = insert_by_name g (insert_by_name f l).
Proof.
  intros Hne.
  assert (Hfg : String.leb (name f) (name g) = negb (String.leb (name g) (name f))).
  { destruct (String.leb (name f) (name g)) eqn:H1,
             (String.leb (name g) (name f)) eqn:H2; try reflexivity.
    - destruct Hne. now apply String.leb_antisym.
    - destruct (String.leb_total (name f) (name g)); congruence. }
  induction l as [|h l IH]; cbn.
  - rewrite Hfg. now destruct (String.leb (name g) (name f)).
  - destruct (String.leb (name g) (name h)) eqn:Hgh,
             (String.leb (name f) (name h)) eqn:Hfh; cbn;
      rewrite ?Hgh, ?Hfh.
    + rewrite Hfg. now destruct (String.leb (name g) (name f)).
    + destruct (String.leb (name f) (name g)) eqn:H1; [|reflexivity].
      now rewrite (string_leb_trans _ _ _ H1 Hgh) in Hfh.
    + destruct (String.leb (name g) (name f)) eqn:H1; [|reflexivity].
      now rewrite (string_leb_trans _ _ _ H1 Hfh) in Hgh.
    + now rewrite IH.
Qed.

(** With distinct names the sorted list does not depend on the order of
    the uploads. *)
Lemma sort_by_name_order_free files files' :
  Permutation files files' ->
  NoDup (map name files) ->
  sort_by_name files = sort_by_name files'.
Proof.
  induction 1 as [|f l l' Hp IH|f g l|l l' l'' Hp1 IH1 Hp2 IH2]; intros Hnd.
  - reflexivity.
  - cbn. rewrite IH; [reflexivity|]. now inversion Hnd.
  - cbn. apply insert_by_name_comm.
    cbn in Hnd. inversion Hnd as [|? ? Hnotin _]. intros Heq.
    apply Hnotin. left. now symmetry.
  - rewrite IH1 by assumption. apply IH2.
    eapply Permutation_NoDup; [|exact Hnd]. now apply Permutation_map.
Qed.

(** ** The file loop *)

Section AssemblerFacts.
Variable E : Env.
Implicit Types (w : World E) (files : list UploadedFile).

Lemma ui_shown_all (calls : list (UiCall E)) w :
  ui (fold_left shown calls w) = ui w ++ calls.
Proof.
  revert w. induction calls as [|c calls IH]; intros w; cbn.
  - now rewrite app_nil_r.
  - rewrite IH. cbn. now rewrite <- app_assoc.
Qed.

Lemma handles_shown_all (calls : list (UiCall E)) w :
  open_documents (fold_left shown calls w) = open_documents w.
Proof.
  revert w. induction calls as [|c calls IH]; intros w; cbn; [reflexivity|].
  now rewrite IH.
Qed.

(** The loop never raises: it collects the readable images in the order
    of the files and shows one error per unreadable file. *)
Lemma for_files_eq files (acc : list (Image E)) w :
  for_files files acc w =
  (Ok (acc ++ readable files),
   fold_left shown (map st_error (unreadable E files)) w).
Proof.
  revert acc w. induction files as [|f files IH]; intros acc w; cbn.
  - now rewrite app_nil_r.
  - unfold bind, try_except, lift.
    destruct (read_image f) as [img|e]; cbn.
    + rewrite IH, <- app_assoc. reflexivity.
    + rewrite IH. reflexivity.
Qed.

Lemma images_to_pdf_eq files output_filename w :
  images_to_pdf files output_filename w =
  match files with
  | [] => (Ok None, shown w (st_warning NeedAtLeastOneImage))
  | _ :: _ =>
      let w1 := fold_left shown (map st_error (unreadable E files)) w in
      match readable files with
      | [] => (Ok None, shown w1 (st_error NoImageRead))
      | first :: others =>
          match save_pdf_raises E (first :: others) with
          | Some e => (Ok None, shown w1 (st_error (MergeRaised e)))
          | None =>
              (Ok (Some {| pdf_resolution := 100;
                           pdf_pages :=
                             flat_map (img_frames E) (first :: others) |}),
               w1)
          end
      end
  end.
Proof.
  destruct files as [|f files]; [reflexivity|].
  unfold images_to_pdf, try_except, bind. rewrite for_files_eq, app_nil_l.
  destruct (readable (f :: files)) as [|first others]; [reflexivity|].
  unfold lift, save_pdf.
  destruct (save_pdf_raises E (first :: others)); reflexivity.
Qed.

Lemma readable_nil_unreadable_all files :
  readable (E:=E) files = [] -> List.length (unreadable E files) = List.length files.
Proof.
  induction files as [|f files IH]; cbn; [reflexivity|].
  destruct (read_image f); [discriminate|].
  intros H. cbn. now rewrite IH.
Qed.

Lemma readable_unreadable_length files :
  List.length (readable (E:=E) files) + List.length (unreadable E files)
  = List.length files.
Proof.
  induction files as [|f files IH]; cbn; [reflexivity|].
  destruct (read_image f); cbn; lia.
Qed.

Lemma flat_map_still (imgs : list (Image E)) :
  (forall img, In img imgs -> img_frames E img = [img]) ->
  flat_map (img_frames E) imgs = imgs.
Proof.
  induction imgs as [|img imgs IH]; intros H; [reflexivity|].
  cbn [flat_map]. rewrite (H img (or_introl eq_refl)), IH; [reflexivity|].
  intros img' Hin. apply H. now right.
Qed.

End AssemblerFacts.

(** ** images_to_pdf and the tab that calls it *)

Section AssemblerClaims.
Variable E : Env.
Implicit Types (w : World E) (files : list UploadedFile).

Lemma downloads_app (a b : list (UiCall E)) :
  downloads (a ++ b) = downloads a ++ downloads b.
Proof.
  induction a as [|c a IH]; cbn; [reflexivity|].
  destruct c; cbn; now rewrite IH.
Qed.

Lemma downloads_errors (ts : list Text) :
  downloads (E:=E) (map st_error ts) = [].
Proof. induction ts; cbn; [reflexivity | assumption]. Qed.

(** Lines 90-95 leave an image alone unless its mode is one of the three
    they name. *)
Lemma read_image_other_mode (f : UploadedFile) (img : Image E) :
  Image_open E (content f) = Ok img ->
  img_mode E img <> "RGBA" -> img_mode E img <> "P" -> img_mode E img <> "L" ->
  read_image f = Ok img.
Proof.
  intros Ho H1 H2 H3. unfold read_image, bindR. rewrite Ho.
  apply String.eqb_neq in H1, H2, H3. now rewrite H1, H2, H3.
Qed.

Lemma tab2_eq f fs output_pdf_name w :
  tab2 true (f :: fs) output_pdf_name w =
  let sorted := sort_by_name (f :: fs) in
  let w0 := shown (shown (shown w (st_info (PreparingMerge (List.length sorted))))
                     (st_write MergeOrderHeading))
              (st_json (map name sorted)) in
  match images_to_pdf sorted output_pdf_name w0 with
  | (Ok (Some pdf), w1) =>
      (Ok tt, shown (shown w1 (st_success MergeSucceeded))
                (st_download_button pdf output_pdf_name))
  | (Ok None, w1) => (Ok tt, shown w1 (st_error MergeFailed))
  | (Raise e, w1) => (Raise e, w1)
  end.
Proof.
  unfold tab2, bind, show. cbv zeta.
  destruct (images_to_pdf (sort_by_name (f :: fs)) output_pdf_name _)
    as [[[pdf|]|e] w1]; reflexivity.
Qed.

(** C5, as the program has it.  A file is unreadable when [Image.open] or
    the conversion of lines 90-95 raises on it; it is readable otherwise,
    also when its pixel data cannot be loaded later.  Every unreadable file
    is shown as an error, in order, and left out.  The call succeeds exactly
    when some file is readable and the PDF writer does not raise on the
    readable images; when the writer raises, the call shows the merge error
    and returns [None], with no diagnostic for the file that made it raise.
    A PDF that is returned has one page per frame of every readable image,
    in the order of the files: one page per readable image when these are
    still images.  With no readable file the call returns [None]. *)
Theorem images_to_pdf_skips_unreadable files output_filename w :
  (exists rest,
     page_after (images_to_pdf files output_filename w)
     = ui w ++ map st_error (unreadable E files) ++ rest) /\
  ((exists pdf,
      returned (images_to_pdf files output_filename w) = Ok (Some pdf))
   <-> readable (E:=E) files <> [] /\
       save_pdf_raises E (readable files) = None) /\
  (forall e,
     readable (E:=E) files <> [] ->
     save_pdf_raises E (readable files) = Some e ->
     returned (images_to_pdf files output_filename w) = Ok None /\
     page_after (images_to_pdf files output_filename w)
     = ui w ++ map st_error (unreadable E files) ++ [st_error (MergeRaised e)]) /\
  (forall pdf,
     returned (images_to_pdf files output_filename w) = Ok (Some pdf) ->
     pdf_pages pdf = flat_map (img_frames E) (readable files) /\
     ((forall img, In img (readable (E:=E) files) -> img_frames E img = [img]) ->
      pdf_pages pdf = readable files)) /\
  (readable (E:=E) files = [] ->
   returned (images_to_pdf files output_filename w) = Ok None).
Proof.
  assert (Hstill : forall imgs : list (Image E),
            (forall img, In img imgs -> img_frames E img = [img]) ->
            flat_map (img_frames E) imgs = imgs).
  { induction imgs as [|img imgs IH]; intros H; [reflexivity|].
    cbn [flat_map]. rewrite (H img (or_introl eq_refl)), IH; [reflexivity|].
    intros img' Hin. apply H. now right. }
  rewrite images_to_pdf_eq. unfold page_after, returned.
  destruct files as [|f files].
  - cbn. split; [now exists [st_warning NeedAtLeastOneImage]|].
    split; [split; [intros [pdf H]; discriminate | intros [H _]; now destruct H]|].
    split; [intros e H; now destruct H|].
    split; [discriminate | reflexivity].
  - cbv zeta.
    destruct (readable (f :: files)) as [|first others] eqn:Hread.
    + cbn [fst snd]. split.
      { exists [st_error NoImageRead]. cbn. rewrite ui_shown_all.
        now rewrite <- app_assoc. }
      split; [split; [intros [pdf H]; discriminate | intros [H _]; now destruct H]|].
      split; [intros e H; now destruct H|].
      split; [discriminate | reflexivity].
    + destruct (save_pdf_raises E (first :: others)) as [e|] eqn:Hsave; cbn [fst snd].
      * split.
        { exists [st_error (MergeRaised e)]. cbn. rewrite ui_shown_all.
          now rewrite <- app_assoc. }
        split; [split; [intros [pdf H]; discriminate | intros [_ H]; discriminate]|].
        split; [|split; discriminate].
        intros e' _ [= <-]. split; [reflexivity|].
        cbn. rewrite ui_shown_all. now rewrite <- app_assoc.
      * split.
        { exists []. now rewrite ui_shown_all, app_nil_r. }
        split; [split; [intros _; now split | intros _; now eexists]|].
        split; [intros e _ H; discriminate|].
        split; [|discriminate].
        intros pdf [= <-]. cbn [pdf_pages]. split; [reflexivity|].
        apply Hstill.
Qed.

(** C2, as the program has it.  [images_to_pdf] puts the readable images on
    the pages in the order the files are given, every image with its frames
    (a still image is one page).  The tab sorts the uploads by name before
    it calls it: the sorted list is a rearrangement of the uploads in
    ascending order of name, the PDF the tab offers has the readable images
    of that list on its pages, and with distinct names the tab does the same
    for every order of the same uploads. *)
Theorem tab2_sorts_before_images_to_pdf files output_name w :
  (forall pdf,
     returned (images_to_pdf files output_name w) = Ok (Some pdf) ->
     pdf_pages pdf = flat_map (img_frames E) (readable files)) /\
  StronglySorted name_le (sort_by_name files) /\
  Permutation (sort_by_name files) files /\
  (exists calls,
     page_after (tab2 true files output_name w) = ui w ++ calls /\
     (forall pdf, In pdf (downloads calls) ->
        pdf_pages pdf = flat_map (img_frames E) (readable (sort_by_name files))) /\
     (readable (E:=E) (sort_by_name files) <> [] ->
      save_pdf_raises E (readable (sort_by_name files)) = None ->
      exists pdf, downloads calls = [pdf])) /\
  (forall files',
     Permutation files files' ->
     NoDup (map name files) ->
     tab2 true files' output_name w = tab2 true files output_name w).
Proof.
  split.
  { rewrite images_to_pdf_eq. unfold returned.
    destruct files as [|f fs]; [discriminate|]. cbv zeta.
    destruct (readable (f :: fs)) as [|first others]; [discriminate|].
    destruct (save_pdf_raises E (first :: others)); [discriminate|].
    now intros pdf [= <-]. }
  split.
  { apply Sorted_StronglySorted; [|apply sort_by_name_sorted].
    intros a b c. apply string_leb_trans. }
  split; [apply sort_by_name_perm|].
  split.
  - destruct files as [|f fs].
    { exists [st_warning UploadImagesFirst]. cbn.
      split; [reflexivity|]. split; [intros pdf []|]. intros H; now destruct H. }
    rewrite tab2_eq. cbv zeta. rewrite images_to_pdf_eq. unfold page_after.
    assert (Hne : sort_by_name (f :: fs) <> []).
    { intros Heq. pose proof (sort_by_name_perm (f :: fs)) as Hp.
      rewrite Heq in Hp. now apply Permutation_nil in Hp. }
    destruct (sort_by_name (f :: fs)) as [|g gs] eqn:Hsort; [congruence|].
    cbv zeta.
    destruct (readable (g :: gs)) as [|first others] eqn:Hread.
    + eexists. cbn [snd shown ui]. rewrite ui_shown_all. cbn [ui shown].
      rewrite <- !app_assoc. split; [reflexivity|].
      rewrite !downloads_app, downloads_errors. cbn.
      split; [intros pdf []|]. intros H; now destruct H.
    + destruct (save_pdf_raises E (first :: others)) as [e|] eqn:Hsave.
      * eexists. cbn [snd shown ui]. rewrite ui_shown_all. cbn [ui shown].
        rewrite <- !app_assoc. split; [reflexivity|].
        rewrite !downloads_app, downloads_errors. cbn.
        split; [intros pdf []|]. intros _ H; discriminate.
      * eexists. cbn [snd shown ui]. rewrite ui_shown_all. cbn [ui shown].
        rewrite <- !app_assoc. split; [reflexivity|].
        rewrite !downloads_app, downloads_errors. cbn.
        split; [|intros _ _; now eexists].
        intros pdf [<- | []]. reflexivity.
  - intros files' Hp Hnd.
    pose proof (sort_by_name_order_free _ _ Hp Hnd) as Hsort.
    destruct files as [|f fs], files' as [|f' fs'];
      try reflexivity;
      try (apply Permutation_nil in Hp; discriminate);
      try (symmetry in Hp; apply Permutation_nil in Hp; discriminate).
    rewrite !tab2_eq. now rewrite Hsort.
Qed.

(** C8, as the program has it.  Neither call raises; a failure is always
    the one value [None].  What went wrong is told on the page only:
    [pdf_to_images] shows exactly one error with a [None] and nothing with a
    list; [images_to_pdf] ends a [None] with the empty-input warning, the
    nothing-readable error or the merge error, and shows only the unreadable
    files with a PDF. *)
Theorem failures_return_none_and_show_why pdf_bytes output_format dpi
    files output_filename w :
  (exists r w',
     pdf_to_images pdf_bytes output_format dpi w = (Ok r, w') /\
     match r with
     | None => exists t, ui w' = ui w ++ [st_error t]
     | Some _ => ui w' = ui w
     end) /\
  (exists r w',
     images_to_pdf files output_filename w = (Ok r, w') /\
     match r with
     | None =>
         exists last,
           ui w' = ui w ++ map st_error (unreadable E files) ++ [last] /\
           (last = st_warning NeedAtLeastOneImage \/
            last = st_error NoImageRead \/
            exists e, last = st_error (MergeRaised e))
     | Some _ => ui w' = ui w ++ map st_error (unreadable E files)
     end).
Proof.
  split; [apply pdf_to_images_reports|].
  rewrite images_to_pdf_eq. destruct files as [|f fs].
  - eexists _, _. split; [reflexivity|]. eexists. split; [reflexivity|]. now left.
  - cbv zeta. destruct (readable (f :: fs)) as [|first others].
    + eexists _, _. split; [reflexivity|]. eexists. cbn [ui shown].
      rewrite ui_shown_all. split; [now rewrite <- app_assoc|]. right; now left.
    + destruct (save_pdf_raises E (first :: others)) as [e|].
      * eexists _, _. split; [reflexivity|]. eexists. cbn [ui shown].
        rewrite ui_shown_all. split; [now rewrite <- app_assoc|].
        right; right; now eexists.
      * eexists _, _. split; [reflexivity|]. apply ui_shown_all.
Qed.

(** What [images_to_pdf] finds in pairs that all read back. *)
Lemma readable_all (entries : list (string * bytes)) :
  (forall entry, In entry entries ->
     exists img, read_image (E:=E) (as_upload entry) = Ok img /\
                 img_frames E img = [img]) ->
  List.length (readable (E:=E) (map as_upload entries)) = List.length entries /\
  (forall img, In img (readable (E:=E) (map as_upload entries)) ->
     img_frames E img = [img]) /\
  unreadable E (map as_upload entries) = [].
Proof.
  induction entries as [|entry entries IH]; intros H; cbn.
  - repeat split. intros img [].
  - destruct (H entry (or_introl eq_refl)) as (img & Hr & Hf). rewrite Hr.
    destruct IH as (IH1 & IH2 & IH3); [intros e He; apply H; now right|].
    cbn. rewrite IH1. repeat split; [|exact IH3].
    intros img' [<- | Hin]; [exact Hf | now apply IH2].
Qed.

(** C9, as the program has it.  Take a document that opens and a DPI at
    which the division of line 33 returns and every page converts to PNG.
    Then [pdf_to_images] returns one pair per page.  Whenever
    [images_to_pdf] makes a PDF of these pairs, its pages are the frames of
    the pairs that read back, in order, and every pair is either read back
    or reported: a pair that does not read back is missing from the PDF.
    The PDF has as many pages as the document when the document has at
    least one page, every pair reads back as a still image and the PDF
    writer does not raise on the images read back; the call then returns
    that PDF and shows nothing. *)
Theorem round_trip_page_count pdf_bytes dpi output_filename w d :
  fitz_open E pdf_bytes = Ok d ->
  division_overflows dpi = false ->
  (forall n, n < doc_len E d ->
     exists entry, page_converts E d "png" (zoom_matrix_of dpi) n entry) ->
  exists images,
    pdf_to_images pdf_bytes "png" dpi w = (Ok (Some images), w) /\
    List.length images = doc_len E d /\
    (forall pdf,
       returned (images_to_pdf (map as_upload images) output_filename w)
       = Ok (Some pdf) ->
       pdf_pages pdf
       = flat_map (img_frames E) (readable (map as_upload images)) /\
       List.length (readable (E:=E) (map as_upload images))
       + List.length (unreadable E (map as_upload images))
       = doc_len E d) /\
    (0 < doc_len E d ->
     (forall entry, In entry images ->
        exists img, read_image (E:=E) (as_upload entry) = Ok img /\
                    img_frames E img = [img]) ->
     save_pdf_raises E (readable (map as_upload images)) = None ->
     exists pdf,
       images_to_pdf (map as_upload images) output_filename w
       = (Ok (Some pdf), w) /\
       List.length (pdf_pages pdf) = doc_len E d).
Proof.
  intros Ho Hov Hpages.
  destruct (pdf_to_images_converts E pdf_bytes "png" dpi w d Ho Hov eq_refl Hpages)
    as (images & Hrun & Hn & _).
  exists images. split; [exact Hrun|]. split; [exact Hn|]. split.
  - intros pdf. rewrite images_to_pdf_eq. unfold returned.
    rewrite <- Hn, <- (length_map as_upload images).
    destruct (map as_upload images) as [|f fs]; [discriminate|]. cbv zeta.
    pose proof (readable_unreadable_length E (f :: fs)) as Hcount.
    destruct (readable (f :: fs)) as [|first others]; [discriminate|].
    destruct (save_pdf_raises E (first :: others)); [discriminate|].
    cbn [fst]. intros [= <-]. split; [reflexivity | exact Hcount].
  - intros Hlen Hback Hsave.
    destruct (readable_all images Hback) as (Hlen' & Hstill & Hnone).
    rewrite images_to_pdf_eq, Hnone.
    destruct images as [|entry images]; [cbn in Hn; lia|].
    cbn [map] in *. cbv zeta. cbn [map fold_left].
    destruct (readable (as_upload entry :: map as_upload images))
      as [|first others]; [cbn in Hlen'; discriminate|].
    rewrite Hsave. eexists. split; [reflexivity|].
    cbn [pdf_pages]. rewrite (flat_map_still E _ Hstill). now rewrite Hlen', <- Hn.
Qed.

End AssemblerClaims.

(** ** Runs in the small environment *)

Module Runs.

Import Byte.
Import Demo.

(** The three pages convert at 200 DPI, as PNG and as JPEG. *)
Lemma three_pages_convert (literal : string) (n : nat) :
  literal = "png" \/ literal = "jpg" ->
  n < 3 ->
  exists entry,
    page_converts env [x41; x42; x43] literal (zoom_matrix_of 200) n entry.
Proof.
  intros [-> | ->] Hn; destruct n as [|[|[|n]]]; try lia; eexists;
    refine (proj1 (page_entry_converts env _ _ _ _ _ _) _); reflexivity.
Qed.

Lemma pdf_to_images_one_pair_per_page_witness :
  exists images,
    pdf_to_images (E:=env) three_pages "jpg" 200 start
    = (Ok (Some images), start) /\
    List.length images = 3 /\
    forall n, n < 3 ->
      exists img_bytes,
        nth_error images n
        = Some (("page_" ++ str_of_nat (n + 1) ++ "." ++ "jpg")%string,
                img_bytes) /\
        page_converts env [x41; x42; x43] "jpg" (zoom_matrix_of 200) n
          (("page_" ++ str_of_nat (n + 1) ++ "." ++ "jpg")%string, img_bytes).
Proof.
  apply (pdf_to_images_one_pair_per_page env three_pages "jpg" 200 start
           [x41; x42; x43]).
  - reflexivity.
  - now right.
  - lia.
  - reflexivity.
  - intros n Hn. apply three_pages_convert; [now right | exact Hn].
Defined.

(** C1 as stated fails: the one-page document converts at 72 DPI, and the
    same buffer in the same format gives [None] at the positive DPI 36000,
    where its page does not render, and at the positive DPI 72 * 2^1024,
    where the division of line 33 raises. *)
Lemma pdf_to_images_dpi_counterexample :
  pdf_to_images (E:=env) one_page "png" 72 start
  = (Ok (Some [("page_1.png", [x01; x41; x41; x41])]), start) /\
  (0 < 36000)%Z /\
  pdf_to_images (E:=env) one_page "png" 36000 start
  = (Ok None, {| ui := [st_error (PdfProcessingFailed "cannot allocate pixmap")];
                 open_documents := 1 |}) /\
  (0 < 72 * 2 ^ 1024)%Z /\
  pdf_to_images (E:=env) one_page "png" (72 * 2 ^ 1024) start
  = (Ok None, {| ui := [st_error (PdfProcessingFailed OverflowError)];
                 open_documents := 1 |}).
Proof. repeat split. Qed.

Example three_pages_as_png :
  pdf_to_images (E:=env) three_pages "png" 200 start
  = (Ok (Some [("page_1.png", [x01; x41; x41; x41]);
               ("page_2.png", [x01; x42; x42; x42]);
               ("page_3.png", [x01; x43; x43; x43])]), start).
Proof. reflexivity. Qed.

(** C3 at a one-page document and the format "gif", and at a document
    whose second page does not render: the call returns [None] and the
    document it opened is still open. *)
Theorem pdf_to_images_leaves_document_open :
  fitz_open env one_page = Ok [x41] /\
  pdf_to_images (E:=env) one_page "gif" 200 start
  = (Ok None, {| ui := [st_error (UnsupportedFormat "gif")];
                 open_documents := 1 |}) /\
  fitz_open env broken_second_page = Ok [x41; x00; x43] /\
  pdf_to_images (E:=env) broken_second_page "png" 200 start
  = (Ok None, {| ui := [st_error (PdfProcessingFailed "cannot render page")];
                 open_documents := 1 |}).
Proof. repeat split. Qed.

Lemma pdf_to_images_all_or_nothing_witness :
  returned (pdf_to_images (E:=env) broken_second_page "png" 200 start) = Ok None /\
  exists t,
    page_after (pdf_to_images (E:=env) broken_second_page "png" 200 start)
    = ui start ++ [st_error t].
Proof.
  apply (proj1 (pdf_to_images_all_or_nothing env broken_second_page "png" 200
                  start [x41; x00; x43] eq_refl)).
  exists 1. split; [cbn; lia | reflexivity].
Defined.

(** C7 as stated fails: "PNG" is neither literal and is served; a document
    without pages gets an empty list and no error whatever the format; a
    first page that does not render is reported as a processing error. *)
Lemma pdf_to_images_format_counterexample :
  "PNG" <> "png" /\ "PNG" <> "jpg" /\
  pdf_to_images (E:=env) one_page "PNG" 200 start
  = (Ok (Some [("page_1.png", [x01; x41; x41; x41])]), start) /\
  pdf_to_images (E:=env) no_page "gif" 200 start = (Ok (Some []), start) /\
  pdf_to_images (E:=env) broken_first_page "gif" 200 start
  = (Ok None, {| ui := [st_error (PdfProcessingFailed "cannot render page")];
                 open_documents := 1 |}).
Proof. repeat split; discriminate. Qed.

Lemma pdf_to_images_refuses_format_witness :
  returned (pdf_to_images (E:=env) one_page "gif" 200 start) = Ok None /\
  page_after (pdf_to_images (E:=env) one_page "gif" 200 start)
  = ui start ++ [st_error (UnsupportedFormat "gif")].
Proof.
  apply (pdf_to_images_refuses_format env one_page "gif" 200 start [x41]
           ("RGB", [x41; x41; x41])).
  - reflexivity.
  - cbn. lia.
  - reflexivity.
  - reflexivity.
  - reflexivity.
Defined.

Lemma pdf_to_images_format_any_case_witness :
  exists images,
    pdf_to_images (E:=env) three_pages "Png" 200 start
    = (Ok (Some images), start) /\
    List.length images = 3 /\
    forall n, n < 3 ->
      exists img_bytes,
        nth_error images n
        = Some (("page_" ++ str_of_nat (n + 1) ++ "." ++ "png")%string,
                img_bytes) /\
        page_converts env [x41; x42; x43] "png" (zoom_matrix_of 200) n
          (("page_" ++ str_of_nat (n + 1) ++ "." ++ "png")%string, img_bytes).
Proof.
  apply (proj2 (proj2 (pdf_to_images_format_any_case env three_pages "Png"
                         "png" 200 start (or_introl eq_refl) eq_refl))
           [x41; x42; x43]).
  - reflexivity.
  - reflexivity.
  - intros n Hn. apply three_pages_convert; [now left | exact Hn].
Defined.

(** C2 as stated fails: given b.png before a.png, [images_to_pdf] puts the
    image of b.png on the first page and the image of a.png on the second. *)
Lemma images_to_pdf_order_counterexample :
  images_to_pdf (E:=env)
    [upload "b.png" [x01; x0b]; upload "a.png" [x01; x0a]] "out.pdf" start
  = (Ok (Some (Build_PdfFile env 100 [("RGB", [x0b]); ("RGB", [x0a])])), start) /\
  read_image (E:=env) (upload "b.png" [x01; x0b]) = Ok ("RGB", [x0b]) /\
  read_image (E:=env) (upload "a.png" [x01; x0a]) = Ok ("RGB", [x0a]).
Proof. repeat split. Qed.

Example tab2_sorts_b_a :
  downloads (page_after (tab2 (E:=env) true
    [upload "b.png" [x01; x0b]; upload "a.png" [x01; x0a]] "out.pdf" start))
  = [Build_PdfFile env 100 [("RGB", [x0a]); ("RGB", [x0b])]].
Proof. reflexivity. Qed.

Lemma tab2_sorts_before_images_to_pdf_witness :
  tab2 (E:=env) true
    [upload "a.png" [x01; x0a]; upload "b.png" [x01; x0b]] "out.pdf" start
  = tab2 (E:=env) true
      [upload "b.png" [x01; x0b]; upload "a.png" [x01; x0a]] "out.pdf" start.
Proof.
  apply (proj2 (proj2 (proj2 (proj2
           (tab2_sorts_before_images_to_pdf env
              [upload "b.png" [x01; x0b]; upload "a.png" [x01; x0a]]
              "out.pdf" start))))).
  - apply perm_swap.
  - cbn. constructor.
    + intros [H | []]. discriminate H.
    + constructor; [intros [] | constructor].
Defined.

(** C5 as stated fails.  A 16-bit greyscale image is decodable, the PDF
    writer raises on it, and the call returns [None].  A file cut off
    after its header, next to a good one, is not decodable, yet it is
    neither reported nor left out: the writer raises and the call returns
    [None].  An animation of three frames, alone, gives three pages. *)
Lemma images_to_pdf_writer_counterexample :
  readable (E:=env) [upload "scan.png" [x06; x0b]] = [("I;16", [x0b])] /\
  images_to_pdf (E:=env) [upload "scan.png" [x06; x0b]] "out.pdf" start
  = (Ok None, {| ui := [st_error (MergeRaised "cannot save mode I;16")];
                 open_documents := 0 |}) /\
  images_to_pdf (E:=env)
    [upload "a.png" [x01; x0a]; upload "cut.png" [x01]] "out.pdf" start
  = (Ok None, {| ui := [st_error (MergeRaised "image file is truncated")];
                 open_documents := 0 |}) /\
  images_to_pdf (E:=env) [upload "anim.png" [x01; xff; x0a; x0b; x0c]]
    "out.pdf" start
  = (Ok (Some (Build_PdfFile env 100
                 [("RGB", [x0a]); ("RGB", [x0b]); ("RGB", [x0c])])), start).
Proof. repeat split. Qed.

Example one_unreadable_of_three :
  images_to_pdf (E:=env)
    [upload "a.png" [x01; x0a]; upload "b.png" [x00]; upload "c.png" [x02; x0c]]
    "out.pdf" start
  = (Ok (Some (Build_PdfFile env 100 [("RGB", [x0a]); ("RGB", [x0c])])),
     {| ui := [st_error (CannotReadImage "b.png" "cannot identify image file")];
        open_documents := 0 |}).
Proof. reflexivity. Qed.

Lemma images_to_pdf_skips_unreadable_witness :
  exists pdf,
    returned (images_to_pdf (E:=env)
      [upload "a.png" [x01; x0a]; upload "b.png" [x00]; upload "c.png" [x02; x0c]]
      "out.pdf" start) = Ok (Some pdf).
Proof.
  apply (proj2 (proj1 (proj2
           (images_to_pdf_skips_unreadable env
              [upload "a.png" [x01; x0a]; upload "b.png" [x00];
               upload "c.png" [x02; x0c]]
              "out.pdf" start)))).
  split; [discriminate | reflexivity].
Defined.

(** C6 at a greyscale image with alpha (mode "LA"): it is none of the
    three modes lines 90-95 convert, so it goes into the PDF as it is, with
    its alpha channel. *)
Theorem images_to_pdf_keeps_mode_LA :
  Image_open env [x05; x0b] = Ok ("LA", [x0b]) /\
  images_to_pdf (E:=env) [upload "scan.png" [x05; x0b]] "out.pdf" start
  = (Ok (Some (Build_PdfFile env 100 [("LA", [x0b])])),
     start) /\
  img_mode env ("LA", [x0b]) <> "RGB".
Proof. repeat split. discriminate. Qed.

(** C8 as stated fails: a buffer that does not open and an unsupported
    format both come back as [None], so no reading of the returned value
    tells the two classes apart. *)
Lemma failure_value_counterexample :
  ~ exists classify : Result (option (list (string * bytes))) -> ErrorClass,
      classify (returned (pdf_to_images (E:=env) not_a_pdf "png" 200 start))
      = DocumentOpenError /\
      classify (returned (pdf_to_images (E:=env) one_page "gif" 200 start))
      = UnsupportedFormatError.
Proof.
  intros (classify & H1 & H2).
  change (returned (pdf_to_images (E:=env) not_a_pdf "png" 200 start))
    with (@Ok (option (list (string * bytes))) None) in H1.
  change (returned (pdf_to_images (E:=env) one_page "gif" 200 start))
    with (@Ok (option (list (string * bytes))) None) in H2.
  congruence.
Qed.

(** C9 as stated fails.  A document without pages gives an empty list,
    and [images_to_pdf] on an empty list gives no PDF.  A document of three
    pages whose second page is beyond the size Pillow opens gives three
    PNGs at 72 DPI, and [images_to_pdf] makes a PDF of two pages of them,
    with a diagnostic for the second. *)
Lemma round_trip_counterexample :
  fitz_open env no_page = Ok [] /\
  pdf_to_images (E:=env) no_page "png" 200 start = (Ok (Some []), start) /\
  images_to_pdf (E:=env) (map as_upload []) "out.pdf" start
  = (Ok None, {| ui := [st_warning NeedAtLeastOneImage]; open_documents := 0 |}) /\
  doc_len env [x41; x7f; x43] = 3 /\
  pdf_to_images (E:=env) huge_second_page "png" 72 start
  = (Ok (Some [("page_1.png", [x01; x41; x41; x41]);
               ("page_2.png", [x01; x7f; x7f; x7f]);
               ("page_3.png", [x01; x43; x43; x43])]), start) /\
  images_to_pdf (E:=env)
    (map as_upload [("page_1.png", [x01; x41; x41; x41]);
                    ("page_2.png", [x01; x7f; x7f; x7f]);
                    ("page_3.png", [x01; x43; x43; x43])]) "out.pdf" start
  = (Ok (Some (Build_PdfFile env 100
                 [("RGB", [x41; x41; x41]); ("RGB", [x43; x43; x43])])),
     {| ui := [st_error (CannotReadImage "page_2.png" "image size exceeds limit")];
        open_documents := 0 |}).
Proof. repeat split. Qed.

Lemma round_trip_page_count_witness :
  exists images pdf,
    pdf_to_images (E:=env) three_pages "png" 200 start
    = (Ok (Some images), start) /\
    images_to_pdf (map as_upload images) "out.pdf" start
    = (Ok (Some pdf), start) /\
    List.length (pdf_pages pdf) = 3.
Proof.
  destruct (round_trip_page_count env three_pages 200 "out.pdf" start
              [x41; x42; x43] eq_refl eq_refl
              (fun n Hn => three_pages_convert "png" n (or_introl eq_refl) Hn))
    as (images & Hrun & _ & _ & Hround).
  pose proof Hrun as Himages. rewrite three_pages_as_png in Himages.
  injection Himages as Himages. subst images.
  destruct Hround as (pdf & Hpdf & Hlen).
  - cbn. lia.
  - intros entry [<- | [<- | [<- | []]]]; eexists; split; reflexivity.
  - reflexivity.
  - eexists _, pdf. split; [exact Hrun|]. split; [exact Hpdf | exact Hlen].
Defined.

End Runs.

(** * More of the program *)

From Stdlib Require DecimalNat.

(** ** File names *)

Lemma string_length_append (s t : string) :
  String.length (s ++ t)%string = String.length s + String.length t.
Proof. induction s as [|c s IH]; cbn; [reflexivity | now rewrite IH]. Qed.

Lemma string_append_cancel_r (s s' t : string) :
  (s ++ t)%string = (s' ++ t)%string -> s = s'.
Proof.
  revert s'. induction s as [|c s IH]; intros [|c' s'] H; cbn in H.
  - reflexivity.
  - apply (f_equal String.length) in H. cbn in H.
    rewrite string_length_append in H. lia.
  - apply (f_equal String.length) in H. cbn in H.
    rewrite string_length_append in H. lia.
  - injection H as -> H. f_equal. now apply IH.
Qed.

Lemma str_of_nat_inj (n m : nat) : str_of_nat n = str_of_nat m -> n = m.
Proof.
  unfold str_of_nat. intros H.
  apply DecimalNat.Unsigned.to_uint_inj.
  apply (f_equal NilEmpty.uint_of_string) in H.
  rewrite !NilEmpty.usu in H. now injection H.
Qed.

Lemma NoDup_map_inj {A B} (f : A -> B) (l : list A) :
  (forall x y, f x = f y -> x = y) -> NoDup l -> NoDup (map f l).
Proof.
  intros Hinj. induction 1 as [|x l Hx _ IH]; cbn; constructor; [|exact IH].
  rewrite in_map_iff. intros (y & Hy & Hin). apply Hinj in Hy. now subst.
Qed.

Section MoreRasterizer.
Variable E : Env.
Implicit Types (w : World E) (d : Document E).

(** The extension the loop gives to every name under this format. *)
Lemma page_entry_name d output_format zoom n entry :
  page_entry d output_format zoom n = Ok entry ->
  fst entry
  = ("page_" ++ str_of_nat (n + 1)
       ++ (if (lower output_format =? "png")%string then ".png" else ".jpg"))%string.
Proof.
  unfold page_entry, encode, encode_png, encode_jpg, bindR.
  destruct (render_page d zoom n) as [img|]; [|discriminate].
  destruct (lower output_format =? "png")%string.
  - destruct (save_png E img); [|discriminate]. now intros [= <-].
  - destruct (if (img_mode E img =? "RGBA")%string
              then img_convert E img "RGB" else Ok img); [|discriminate].
    destruct (save_jpeg E _ 95); [|discriminate]. now intros [= <-].
Qed.

Lemma entries_names d output_format zoom ns entries :
  Forall2 (fun n entry => page_entry d output_format zoom n = Ok entry)
          ns entries ->
  map fst entries
  = map (fun n =>
           ("page_" ++ str_of_nat (n + 1)
              ++ (if (lower output_format =? "png")%string
                  then ".png" else ".jpg"))%string) ns.
Proof.
  induction 1 as [|n entry ns entries Hentry _ IH]; cbn; [reflexivity|].
  now rewrite (page_entry_name _ _ _ _ _ Hentry), IH.
Qed.

(** The loop stops at the first page that fails, with that page's
    exception; the pages after it are not looked at. *)
Lemma for_pages_first_failure d output_format zoom good k rest acc w e :
  supported output_format = true ->
  Forall (fun m => page_fails d output_format zoom m = false) good ->
  page_entry d output_format zoom k = Raise e ->
  for_pages d output_format zoom (good ++ k :: rest) acc w = (Raise e, w).
Proof.
  intros Hs Hgood Hk. revert acc.
  induction Hgood as [|m good Hm _ IH]; intros acc;
    rewrite ?app_nil_l, <- ?app_comm_cons, for_pages_cons, convert_page_eq, Hs.
  - unfold page_entry, bindR in Hk.
    destruct (render_page d zoom k) as [img|e']; [|congruence].
    now rewrite Hk.
  - unfold page_fails in Hm. rewrite Hs in Hm.
    destruct (render_page d zoom m) as [img|]; [|discriminate].
    destruct (encode output_format img m); [apply IH | discriminate].
Qed.

(** With a supported format the only error is the processing error. *)
Lemma pdf_to_images_supported_reports pdf_bytes output_format dpi w :
  supported output_format = true ->
  exists r w',
    pdf_to_images pdf_bytes output_format dpi w = (Ok r, w') /\
    match r with
    | None => exists e, ui w' = ui w ++ [st_error (PdfProcessingFailed e)]
    | Some _ => w' = w
    end.
Proof.
  intros Hs. destruct (fitz_open E pdf_bytes) as [d|e] eqn:Ho.
  - destruct (division_overflows dpi) eqn:Hov.
    { rewrite (pdf_to_images_overflow _ _ _ _ _ _ Ho Hov).
      eexists _, _. split; [reflexivity|]. now eexists. }
    rewrite (pdf_to_images_opened _ _ _ _ _ _ Ho Hov).
    destruct (for_pages_outcome E d output_format (zoom_matrix_of dpi)
                (seq 0 (doc_len E d)) [] (opened w))
      as [(entries & -> & _) | [[_ Hno] | (e & n & _ & _ & ->)]].
    + eexists _, _. split; [reflexivity|]. apply closed_opened.
    + congruence.
    + eexists _, _. split; [reflexivity|]. now eexists.
  - rewrite (pdf_to_images_not_opened _ _ _ _ _ _ Ho).
    eexists _, _. split; [reflexivity|]. now eexists.
Qed.

(** X1.  A buffer that [fitz.open] refuses: the call returns [None], shows
    the processing error with the exception of [fitz.open], and no document
    is left open. *)
Theorem pdf_to_images_open_failure pdf_bytes output_format dpi w e :
  fitz_open E pdf_bytes = Raise e ->
  returned (pdf_to_images pdf_bytes output_format dpi w) = Ok None /\
  page_after (pdf_to_images pdf_bytes output_format dpi w)
  = ui w ++ [st_error (PdfProcessingFailed e)] /\
  handles_after (pdf_to_images pdf_bytes output_format dpi w)
  = open_documents w.
Proof.
  intros Ho. rewrite (pdf_to_images_not_opened _ _ _ _ _ _ Ho).
  repeat split.
Qed.

(** X2.  A document without pages, whatever the format, supported or not.
    When the division of line 33 returns, the call returns the empty list,
    shows nothing and closes the document.  When it raises, the call
    returns [None], shows the processing error with the overflow message
    and leaves the document open. *)
Theorem pdf_to_images_no_page pdf_bytes output_format dpi w d :
  fitz_open E pdf_bytes = Ok d ->
  doc_len E d = 0 ->
  pdf_to_images pdf_bytes output_format dpi w
  = if division_overflows dpi
    then (Ok None,
          shown (opened w) (st_error (PdfProcessingFailed OverflowError)))
    else (Ok (Some []), w).
Proof.
  intros Ho Hlen. destruct (division_overflows dpi) eqn:Hov.
  - apply (pdf_to_images_overflow _ _ _ _ _ _ Ho Hov).
  - rewrite (pdf_to_images_opened _ _ _ _ _ _ Ho Hov), Hlen.
    cbn. now rewrite closed_opened.
Qed.

(** X3.  Under a supported format, when the division of line 33 returns,
    the pages before page k convert and page k raises e while rendering or
    encoding, the call returns [None] and the one error it shows carries e:
    the exception of the first failing page, whatever the later pages would
    do. *)
Theorem pdf_to_images_first_failure pdf_bytes output_format dpi w d k e :
  fitz_open E pdf_bytes = Ok d ->
  division_overflows dpi = false ->
  supported output_format = true ->
  k < doc_len E d ->
  (forall m, m < k ->
     page_fails d output_format (zoom_matrix_of dpi) m = false) ->
  page_entry d output_format (zoom_matrix_of dpi) k = Raise e ->
  returned (pdf_to_images pdf_bytes output_format dpi w) = Ok None /\
  page_after (pdf_to_images pdf_bytes output_format dpi w)
  = ui w ++ [st_error (PdfProcessingFailed e)].
Proof.
  intros Ho Hov Hs Hk Hgood Hfail.
  rewrite (pdf_to_images_opened _ _ _ _ _ _ Ho Hov).
  replace (doc_len E d) with (k + S (doc_len E d - S k)) by lia.
  rewrite seq_app. cbn [seq].
  rewrite (for_pages_first_failure d output_format _ _ _ _ _ _ e Hs); try assumption.
  - split; reflexivity.
  - apply Forall_forall. intros m Hm. apply in_seq in Hm. apply Hgood. lia.
Qed.

(** X4.  The names in a returned list are pairwise different. *)
Theorem pdf_to_images_names_distinct pdf_bytes output_format dpi w images w' :
  pdf_to_images pdf_bytes output_format dpi w = (Ok (Some images), w') ->
  NoDup (map fst images).
Proof.
  destruct (fitz_open E pdf_bytes) as [d|e] eqn:Ho.
  - destruct (division_overflows dpi) eqn:Hov.
    { rewrite (pdf_to_images_overflow _ _ _ _ _ _ Ho Hov). discriminate. }
    rewrite (pdf_to_images_opened _ _ _ _ _ _ Ho Hov).
    destruct (for_pages_outcome E d output_format (zoom_matrix_of dpi)
                (seq 0 (doc_len E d)) [] (opened w))
      as [(entries & -> & Hall & _) | [[-> _] | (e & n & _ & _ & ->)]];
      try discriminate.
    intros [= <- _]. rewrite ?app_nil_l, (entries_names _ _ _ _ _ Hall).
    apply NoDup_map_inj; [|apply seq_NoDup].
    intros x y Hxy. cbn in Hxy. injection Hxy as Hxy.
    apply string_append_cancel_r, str_of_nat_inj in Hxy. lia.
  - rewrite (pdf_to_images_not_opened _ _ _ _ _ _ Ho). discriminate.
Qed.

(** X5.  A call that returns a list leaves the world as it found it,
    nothing shown and no document open, and the list has one pair per page
    of the document [fitz.open] returned. *)
Theorem pdf_to_images_success_is_clean pdf_bytes output_format dpi w images w' :
  pdf_to_images pdf_bytes output_format dpi w = (Ok (Some images), w') ->
  w' = w /\
  exists d, fitz_open E pdf_bytes = Ok d /\ List.length images = doc_len E d.
Proof.
  destruct (fitz_open E pdf_bytes) as [d|e] eqn:Ho.
  - destruct (division_overflows dpi) eqn:Hov.
    { rewrite (pdf_to_images_overflow _ _ _ _ _ _ Ho Hov). discriminate. }
    rewrite (pdf_to_images_opened _ _ _ _ _ _ Ho Hov).
    destruct (for_pages_outcome E d output_format (zoom_matrix_of dpi)
                (seq 0 (doc_len E d)) [] (opened w))
      as [(entries & -> & Hall & _) | [[-> _] | (e & n & _ & _ & ->)]];
      try discriminate.
    intros [= <- <-]. split; [apply closed_opened|].
    exists d. split; [reflexivity|].
    rewrite ?app_nil_l, <- (Forall2_length Hall). apply length_seq.
  - rewrite (pdf_to_images_not_opened _ _ _ _ _ _ Ho). discriminate.
Qed.

(** X6.  The open documents after a call: one more than before when
    [fitz.open] returned a document and the call returned [None]; as many
    as before in every other case. *)
Theorem pdf_to_images_handle_accounting pdf_bytes output_format dpi w :
  handles_after (pdf_to_images pdf_bytes output_format dpi w) =
  match fitz_open E pdf_bytes,
        returned (pdf_to_images pdf_bytes output_format dpi w) with
  | Ok _, Ok None => S (open_documents w)
  | _, _ => open_documents w
  end.
Proof.
  destruct (fitz_open E pdf_bytes) as [d|e] eqn:Ho.
  - destruct (division_overflows dpi) eqn:Hov.
    { now rewrite (pdf_to_images_overflow _ _ _ _ _ _ Ho Hov). }
    rewrite (pdf_to_images_opened _ _ _ _ _ _ Ho Hov).
    destruct (for_pages_outcome E d output_format (zoom_matrix_of dpi)
                (seq 0 (doc_len E d)) [] (opened w))
      as [(entries & -> & _) | [[-> _] | (e & n & _ & _ & ->)]];
      reflexivity.
  - rewrite (pdf_to_images_not_opened _ _ _ _ _ _ Ho). reflexivity.
Qed.

(** X7.  With a format that lower-cases to "png" or "jpg", a [None] always
    comes with the processing error, never with the unsupported-format
    error. *)
Theorem pdf_to_images_supported_failure pdf_bytes output_format dpi w :
  supported output_format = true ->
  returned (pdf_to_images pdf_bytes output_format dpi w) = Ok None ->
  exists e,
    page_after (pdf_to_images pdf_bytes output_format dpi w)
    = ui w ++ [st_error (PdfProcessingFailed e)].
Proof.
  intros Hs.
  destruct (pdf_to_images_supported_reports pdf_bytes output_format dpi w Hs)
    as ([images|] & w' & -> & Hw); [discriminate|].
  intros _. exact Hw.
Qed.

End MoreRasterizer.

(** ** More of images_to_pdf *)

Section MoreAssembler.
Variable E : Env.
Implicit Types (w : World E) (files : list UploadedFile).

Lemma errors_app (a b : list (UiCall E)) :
  errors (a ++ b) = errors a ++ errors b.
Proof.
  induction a as [|c a IH]; cbn; [reflexivity|].
  destruct c; cbn; now rewrite IH.
Qed.

Lemma errors_map_st_error (ts : list Text) :
  errors (E:=E) (map st_error ts) = ts.
Proof. induction ts as [|t ts IH]; cbn; [reflexivity | now rewrite IH]. Qed.

Lemma readable_app files files' :
  readable (E:=E) (files ++ files') = readable files ++ readable files'.
Proof.
  induction files as [|f files IH]; cbn; [reflexivity|].
  destruct (read_image f); cbn; now rewrite IH.
Qed.

(** What a successful call returns. *)
Lemma images_to_pdf_some files output_filename w pdf :
  returned (images_to_pdf files output_filename w) = Ok (Some pdf) ->
  pdf = {| pdf_resolution := 100;
           pdf_pages := flat_map (img_frames E) (readable files) |} /\
  page_after (images_to_pdf files output_filename w)
  = ui w ++ map st_error (unreadable E files).
Proof.
  rewrite images_to_pdf_eq. unfold returned, page_after.
  destruct files as [|f fs]; [discriminate|]. cbv zeta.
  destruct (readable (f :: fs)) as [|first others]; [discriminate|].
  destruct (save_pdf_raises E (first :: others)); [discriminate|].
  cbn [fst snd]. intros [= <-]. split; [reflexivity | apply ui_shown_all].
Qed.

(** What lines 90-95 make of an image, when [img.convert] returns an image
    in the mode it was asked for. *)
Lemma read_image_mode (f : UploadedFile) (img : Image E) :
  (forall img0 mode img', img_convert E img0 mode = Ok img' ->
                          img_mode E img' = mode) ->
  read_image f = Ok img ->
  img_mode E img <> "RGBA" /\ img_mode E img <> "P" /\ img_mode E img <> "L".
Proof.
  intros Hconv. unfold read_image, bindR.
  destruct (Image_open E (content f)) as [img0|]; [|discriminate].
  destruct (img_mode E img0 =? "RGBA")%string eqn:H1;
    [intros H; apply Hconv in H; rewrite H; repeat split; discriminate|].
  destruct (img_mode E img0 =? "P")%string eqn:H2;
    [intros H; apply Hconv in H; rewrite H; repeat split; discriminate|].
  destruct (img_mode E img0 =? "L")%string eqn:H3;
    [intros H; apply Hconv in H; rewrite H; repeat split; discriminate|].
  intros [= <-]. apply String.eqb_neq in H1, H2, H3. now repeat split.
Qed.

(** X8.  When the call returns a PDF, every file is accounted for once:
    it is either one of the images handed to the PDF writer, whose frames
    are the pages of the PDF in the order of the files, or a file with a
    diagnostic.  The errors shown are exactly the diagnostics of the
    unreadable files, in order; the images handed over and the diagnostics
    together are as many as the files; and the resolution tag is 100. *)
Theorem images_to_pdf_accounts_for_every_file files output_filename w pdf :
  returned (images_to_pdf files output_filename w) = Ok (Some pdf) ->
  errors (page_after (images_to_pdf files output_filename w))
  = errors (ui w) ++ unreadable E files /\
  pdf_pages pdf = flat_map (img_frames E) (readable files) /\
  List.length (readable (E:=E) files) + List.length (unreadable E files)
  = List.length files /\
  pdf_resolution pdf = 100%Q.
Proof.
  intros H. destruct (images_to_pdf_some _ _ _ _ H) as [-> ->].
  rewrite errors_app, errors_map_st_error. cbn [pdf_pages pdf_resolution].
  split; [reflexivity|]. split; [reflexivity|].
  split; [apply readable_unreadable_length | reflexivity].
Qed.

(** X9.  Files, but none readable: the call shows one diagnostic per file,
    in order, then the nothing-read error, and returns [None]; the PDF
    writer is not called. *)
Theorem images_to_pdf_nothing_readable files output_filename w :
  files <> [] ->
  readable (E:=E) files = [] ->
  returned (images_to_pdf files output_filename w) = Ok None /\
  page_after (images_to_pdf files output_filename w)
  = ui w ++ map st_error (unreadable E files) ++ [st_error NoImageRead] /\
  List.length (unreadable E files) = List.length files.
Proof.
  intros Hne Hread. rewrite images_to_pdf_eq.
  destruct files as [|f fs]; [congruence|]. cbv zeta. rewrite Hread.
  unfold returned, page_after. cbn [fst snd shown ui].
  rewrite ui_shown_all, <- app_assoc.
  split; [reflexivity|]. split; [reflexivity|].
  now apply readable_nil_unreadable_all.
Qed.

(** X10.  When [img.convert] returns an image in the mode it was asked
    for, no image handed to the PDF writer is in mode RGBA, P or L; and no
    page of a returned PDF is, the pages being the frames of these images,
    when every frame of such an image is in the mode of the image. *)
Theorem images_to_pdf_pages_not_rgba_p_l files output_filename w pdf :
  (forall img0 mode img', img_convert E img0 mode = Ok img' ->
                          img_mode E img' = mode) ->
  returned (images_to_pdf files output_filename w) = Ok (Some pdf) ->
  Forall (fun img => img_mode E img <> "RGBA" /\ img_mode E img <> "P" /\
                     img_mode E img <> "L") (readable files) /\
  pdf_pages pdf = flat_map (img_frames E) (readable files) /\
  ((forall img frame,
      In img (readable (E:=E) files) -> In frame (img_frames E img) ->
      img_mode E frame = img_mode E img) ->
   Forall (fun img => img_mode E img <> "RGBA" /\ img_mode E img <> "P" /\
                      img_mode E img <> "L") (pdf_pages pdf)).
Proof.
  intros Hconv H. destruct (images_to_pdf_some _ _ _ _ H) as [-> _].
  cbn [pdf_pages]. clear H.
  assert (Himgs : Forall (fun img => img_mode E img <> "RGBA" /\
                            img_mode E img <> "P" /\ img_mode E img <> "L")
                         (readable (E:=E) files)).
  { induction files as [|f fs IH]; cbn; [constructor|].
    destruct (read_image f) as [img|] eqn:Hr; [|exact IH].
    constructor; [|exact IH]. now apply (read_image_mode f). }
  split; [exact Himgs|]. split; [reflexivity|].
  intros Hframes. apply Forall_forall. intros frame Hin.
  apply in_flat_map in Hin. destruct Hin as (img & Himg & Hframe).
  rewrite (Hframes img frame Himg Hframe).
  exact (proj1 (Forall_forall _ _) Himgs img Himg).
Qed.

(** X11.  A file that opens in mode RGBA, P or L and whose conversion to RGB
    raises is treated like a file that does not open: alone, it is reported
    with the exception of the conversion, then the nothing-read error is
    shown and the call returns [None]. *)
Theorem images_to_pdf_conversion_raises f output_filename w img e :
  Image_open E (content f) = Ok img ->
  img_mode E img = "RGBA" \/ img_mode E img = "P" \/ img_mode E img = "L" ->
  img_convert E img "RGB" = Raise e ->
  returned (images_to_pdf [f] output_filename w) = Ok None /\
  page_after (images_to_pdf [f] output_filename w)
  = ui w ++ [st_error (CannotReadImage (name f) e); st_error NoImageRead].
Proof.
  intros Ho Hmode Hc.
  assert (Hr : read_image (E:=E) f = Raise e).
  { unfold read_image, bindR. rewrite Ho.
    destruct Hmode as [-> | [-> | ->]]; cbn; exact Hc. }
  rewrite images_to_pdf_eq. cbv zeta. cbn [readable unreadable]. rewrite Hr.
  cbn. now rewrite <- app_assoc.
Qed.

(** X12.  Pages add up: when the call returns a PDF for one list of files,
    for another, and for the first followed by the second, the pages of the
    third are the pages of the first followed by the pages of the second. *)
Theorem images_to_pdf_pages_append files files' n1 n2 n3 w1 w2 w3
    pdf1 pdf2 pdf3 :
  returned (images_to_pdf files n1 w1) = Ok (Some pdf1) ->
  returned (images_to_pdf files' n2 w2) = Ok (Some pdf2) ->
  returned (images_to_pdf (files ++ files') n3 w3) = Ok (Some pdf3) ->
  pdf_pages pdf3 = pdf_pages pdf1 ++ pdf_pages pdf2.
Proof.
  intros H1 H2 H3.
  destruct (images_to_pdf_some _ _ _ _ H1) as [-> _].
  destruct (images_to_pdf_some _ _ _ _ H2) as [-> _].
  destruct (images_to_pdf_some _ _ _ _ H3) as [-> _].
  cbn [pdf_pages]. now rewrite readable_app, flat_map_app.
Qed.

End MoreAssembler.

(** ** More of the sort *)

Lemma string_leb_refl (s : string) : String.leb s s = true.
Proof. now destruct (String.leb_total s s). Qed.

Lemma insert_by_name_filter (n : string) f l :
  filter (fun g => (name g =? n)%string) (insert_by_name f l)
  = filter (fun g => (name g =? n)%string) (f :: l).
Proof.
  induction l as [|g l IH]; [reflexivity|].
  cbn [insert_by_name].
  destruct (String.leb (name f) (name g)) eqn:Hfg; [reflexivity|].
  cbn [filter] in *. rewrite IH.
  destruct (name f =? n)%string eqn:Hf, (name g =? n)%string eqn:Hg;
    try reflexivity.
  apply String.eqb_eq in Hf, Hg. rewrite Hf, Hg, string_leb_refl in Hfg.
  discriminate.
Qed.

(** X13.  The sort is stable: the uploads that share a name come out in
    the order in which they went in. *)
Theorem sort_by_name_stable (n : string) (files : list UploadedFile) :
  filter (fun g => (name g =? n)%string) (sort_by_name files)
  = filter (fun g => (name g =? n)%string) files.
Proof.
  induction files as [|f files IH]; [reflexivity|].
  cbn [sort_by_name]. rewrite insert_by_name_filter. cbn [filter].
  now rewrite IH.
Qed.

(** X14.  Uploads that already are in ascending order of name are left in
    that order. *)
Theorem sort_by_name_sorted_input (files : list UploadedFile) :
  Sorted name_le files -> sort_by_name files = files.
Proof.
  induction 1 as [|f files _ IH Hhd]; [reflexivity|].
  cbn [sort_by_name]. rewrite IH.
  destruct Hhd as [|g files Hfg]; [reflexivity|].
  cbn [insert_by_name]. unfold name_le in Hfg. now rewrite Hfg.
Qed.

(** ** More of the "images to PDF" tab *)

Section MoreTab2.
Variable E : Env.
Implicit Types (w : World E) (files : list UploadedFile).

(** Everything the tab shows for a list of uploads that is not empty. *)
Lemma tab2_calls files output_pdf_name w :
  files <> [] ->
  returned (tab2 true files output_pdf_name w) = Ok tt /\
  exists rest,
    page_after (tab2 true files output_pdf_name w)
    = ui w
      ++ [st_info (PreparingMerge (List.length files));
          st_write MergeOrderHeading;
          st_json (map name (sort_by_name files))]
      ++ map st_error (unreadable E (sort_by_name files))
      ++ rest /\
    (rest = [st_success MergeSucceeded;
             st_download_button
               {| pdf_resolution := 100;
                  pdf_pages :=
                    flat_map (img_frames E) (readable (sort_by_name files)) |}
               output_pdf_name]
     \/ rest = [st_error NoImageRead; st_error MergeFailed]
     \/ exists e, rest = [st_error (MergeRaised e); st_error MergeFailed]).
Proof.
  intros Hne. destruct files as [|f fs]; [congruence|].
  rewrite tab2_eq. cbv zeta. rewrite images_to_pdf_eq.
  rewrite (Permutation_length (sort_by_name_perm (f :: fs))).
  assert (Hs : sort_by_name (f :: fs) <> []).
  { intros Heq. pose proof (sort_by_name_perm (f :: fs)) as Hp.
    rewrite Heq in Hp. now apply Permutation_nil in Hp. }
  destruct (sort_by_name (f :: fs)) as [|g gs]; [congruence|]. cbv zeta.
  unfold returned, page_after.
  destruct (readable (g :: gs)) as [|first others].
  - split; [reflexivity|]. eexists. cbn [snd shown ui].
    rewrite ui_shown_all. cbn [ui shown]. rewrite <- !app_assoc.
    split; [reflexivity|]. right; now left.
  - destruct (save_pdf_raises E (first :: others)) as [e|].
    + split; [reflexivity|]. eexists. cbn [snd shown ui].
      rewrite ui_shown_all. cbn [ui shown]. rewrite <- !app_assoc.
      split; [reflexivity|]. right; right; now eexists.
    + split; [reflexivity|]. eexists. cbn [snd shown ui].
      rewrite ui_shown_all. cbn [ui shown]. rewrite <- !app_assoc.
      split; [reflexivity|]. now left.
Qed.

(** X15.  Whatever the button and the uploads, the tab never shows the
    empty-input warning of [images_to_pdf]: it calls [images_to_pdf] only
    with a list that is not empty. *)
Theorem tab2_never_shows_empty_input_warning convert_images_button files
    output_pdf_name w :
  exists calls,
    page_after (tab2 convert_images_button files output_pdf_name w)
    = ui w ++ calls /\
    ~ In (st_warning NeedAtLeastOneImage) calls.
Proof.
  destruct convert_images_button.
  - destruct files as [|f fs].
    + exists [st_warning UploadImagesFirst]. split; [reflexivity|].
      intros [H | []]. discriminate.
    + destruct (tab2_calls (f :: fs) output_pdf_name w) as (_ & rest & -> & Hrest);
        [discriminate|].
      eexists. split; [reflexivity|].
      rewrite !in_app_iff, in_map_iff.
      intros [H | [(t & H & _) | H]].
      * cbn in H. intuition discriminate.
      * discriminate.
      * destruct Hrest as [-> | [-> | (e & ->)]]; cbn in H; intuition discriminate.
  - exists []. split; [|intros []].
    unfold page_after; destruct files; cbn; now rewrite app_nil_r.
Qed.

(** X16.  With the button pressed and at least one upload the tab does not
    raise and shows, in this order: the number of uploads; the heading; the
    names of all uploads in sorted order, the unreadable ones included; one
    diagnostic per unreadable upload; and then either the success message
    with the download of the PDF made of the frames of the readable uploads
    in sorted order, or the nothing-read error followed by the merge-failed error, or
    the error of the PDF writer followed by the merge-failed error. *)
Theorem tab2_shows files output_pdf_name w :
  files <> [] ->
  returned (tab2 true files output_pdf_name w) = Ok tt /\
  exists rest,
    page_after (tab2 true files output_pdf_name w)
    = ui w
      ++ [st_info (PreparingMerge (List.length files));
          st_write MergeOrderHeading;
          st_json (map name (sort_by_name files))]
      ++ map st_error (unreadable E (sort_by_name files))
      ++ rest /\
    (rest = [st_success MergeSucceeded;
             st_download_button
               {| pdf_resolution := 100;
                  pdf_pages :=
                    flat_map (img_frames E) (readable (sort_by_name files)) |}
               output_pdf_name]
     \/ rest = [st_error NoImageRead; st_error MergeFailed]
     \/ exists e, rest = [st_error (MergeRaised e); st_error MergeFailed]).
Proof. apply tab2_calls. Qed.

End MoreTab2.

(** ** The "PDF to images" tab *)

Lemma write_all_app (image_data : list (string * bytes)) (zf : ZipFile) :
  write_all image_data zf = zf ++ image_data.
Proof.
  revert zf. induction image_data as [|[filename img_bytes] rest IH]; intros zf; cbn.
  - now rewrite app_nil_r.
  - rewrite IH. unfold writestr. now rewrite <- app_assoc.
Qed.

Lemma preview_length (i : nat) (image_data : list (string * bytes)) :
  List.length (preview i image_data) = List.length image_data.
Proof.
  revert i. induction image_data as [|[filename img_bytes] rest IH]; intros i; cbn;
    [reflexivity | now rewrite IH].
Qed.

Lemma preview_nth (image_data : list (string * bytes)) (k i : nat)
    (filename : string) (img_bytes : bytes) :
  nth_error image_data i = Some (filename, img_bytes) ->
  nth_error (preview k image_data) i
  = Some (t1_image ((k + i) mod 5) img_bytes filename).
Proof.
  revert k i. induction image_data as [|[fn b] rest IH]; intros k [|i] H;
    try discriminate.
  - injection H as -> ->. cbn [preview nth_error]. now rewrite Nat.add_0_r.
  - cbn [preview nth_error]. rewrite (IH (S k) i H).
    now rewrite Nat.add_succ_r.
Qed.

Section MoreTab1.
Variable E : Env.
Variable splitext : string -> string * string.
Implicit Types (w : World E) (uploaded_pdf : UploadedFile).

Lemma tab1_eq uploaded_pdf output_format dpi w :
  tab1 splitext true (Some uploaded_pdf) output_format dpi w =
  match pdf_to_images (content uploaded_pdf) (lower output_format) dpi w with
  | (Ok (Some (entry :: others)), w') =>
      (Ok ([t1_success (List.length (entry :: others));
            t1_download_button output_format (entry :: others)
              (fst (splitext (name uploaded_pdf)) ++ "_images.zip")%string;
            t1_subheader;
            t1_columns 5]
           ++ preview 0 (firstn 5 (entry :: others))), w')
  | (Ok _, w') => (Ok [t1_error], w')
  | (Raise e, w') => (Raise e, w')
  end.
Proof.
  unfold tab1, bind.
  destruct (pdf_to_images (content uploaded_pdf) (lower output_format) dpi w)
    as [[[[|entry others]|]|e] w']; try reflexivity.
  cbn [truthy]. unfold ret. now rewrite write_all_app.
Qed.

(** X17.  With one of the two formats the tab offers, "PNG" or "JPG",
    whatever the button and the upload, no unsupported-format error is ever
    shown. *)
Theorem tab1_never_shows_unsupported_format convert_pdf_button
    (uploaded_pdf : option UploadedFile) output_format dpi w :
  output_format = "PNG" \/ output_format = "JPG" ->
  exists calls,
    page_after (tab1 splitext convert_pdf_button uploaded_pdf output_format dpi w)
    = ui w ++ calls /\
    forall refused, ~ In (st_error (UnsupportedFormat refused)) calls.
Proof.
  intros Hradio.
  assert (Hs : supported (lower output_format) = true)
    by (destruct Hradio as [-> | ->]; reflexivity).
  destruct convert_pdf_button, uploaded_pdf as [up|];
    try (exists []; split; [cbn; now rewrite app_nil_r | intros ? []]).
  rewrite tab1_eq.
  destruct (pdf_to_images_supported_reports E (content up) (lower output_format)
              dpi w Hs) as ([images|] & w' & -> & Hw).
  - subst w'. exists []. split; [|intros ? []].
    unfold page_after. destruct images; cbn; now rewrite app_nil_r.
  - destruct Hw as (e & Hw). eexists. split; [exact Hw|].
    intros refused [H | []]. discriminate.
Qed.

(** X18.  A document without pages, at a DPI at which the division of
    line 33 returns, as at every DPI of the slider: the tab shows its
    conversion-failed error and nothing else, although [pdf_to_images]
    returned a list and showed no error. *)
Theorem tab1_no_page uploaded_pdf output_format dpi w d :
  fitz_open E (content uploaded_pdf) = Ok d ->
  doc_len E d = 0 ->
  division_overflows dpi = false ->
  tab1 splitext true (Some uploaded_pdf) output_format dpi w
  = (Ok [t1_error], w).
Proof.
  intros Ho Hlen Hov.
  rewrite tab1_eq, (pdf_to_images_opened _ _ _ _ _ _ Ho Hov), Hlen.
  cbn. now rewrite closed_opened.
Qed.

(** X19.  When [pdf_to_images] returns a list that is not empty, the tab
    shows the success message with the length of the list, then the
    download of an archive whose members are exactly the pairs of the list,
    in order, under the upload's name without extension followed by
    "_images.zip", then the heading, five columns, and one image per pair
    for the first five pairs at most, pair i in column i with its name as
    caption. *)
Theorem tab1_success uploaded_pdf output_format dpi w images w' :
  pdf_to_images (content uploaded_pdf) (lower output_format) dpi w
  = (Ok (Some images), w') ->
  images <> [] ->
  exists previews,
    tab1 splitext true (Some uploaded_pdf) output_format dpi w
    = (Ok ([t1_success (List.length images);
            t1_download_button output_format images
              (fst (splitext (name uploaded_pdf)) ++ "_images.zip")%string;
            t1_subheader;
            t1_columns 5] ++ previews), w') /\
    List.length previews = Nat.min 5 (List.length images) /\
    forall i filename img_bytes,
      i < 5 ->
      nth_error images i = Some (filename, img_bytes) ->
      nth_error previews i = Some (t1_image i img_bytes filename).
Proof.
  intros Hrun Hne. rewrite tab1_eq, Hrun.
  destruct images as [|entry others]; [congruence|].
  exists (preview 0 (firstn 5 (entry :: others))).
  split; [reflexivity|]. split.
  - now rewrite preview_length, length_firstn.
  - intros i filename img_bytes Hi Hnth.
    rewrite (preview_nth _ 0 i filename img_bytes).
    + cbn [Nat.add]. now rewrite Nat.mod_small.
    + rewrite nth_error_firstn. apply Nat.ltb_lt in Hi. now rewrite Hi.
Qed.

(** X20.  End to end: for an upload that opens with at least one page, a
    DPI at which the division of line 33 returns, as every DPI of the
    slider, one of the two formats the tab offers and no failing page, the tab leaves
    the page and the handles as they were, shows the success message with
    the number of pages and offers an archive with one member per page. *)
Theorem tab1_converts_document uploaded_pdf output_format dpi w d :
  fitz_open E (content uploaded_pdf) = Ok d ->
  0 < doc_len E d ->
  division_overflows dpi = false ->
  output_format = "PNG" \/ output_format = "JPG" ->
  (forall n, n < doc_len E d ->
     page_fails d (lower output_format) (zoom_matrix_of dpi) n = false) ->
  exists images previews,
    tab1 splitext true (Some uploaded_pdf) output_format dpi w
    = (Ok ([t1_success (doc_len E d);
            t1_download_button output_format images
              (fst (splitext (name uploaded_pdf)) ++ "_images.zip")%string;
            t1_subheader;
            t1_columns 5] ++ previews), w) /\
    List.length images = doc_len E d /\
    List.length previews = Nat.min 5 (doc_len E d).
Proof.
  intros Ho Hlen Hov Hradio Hpages.
  assert (Hs : supported (lower output_format) = true)
    by (destruct Hradio as [-> | ->]; reflexivity).
  destruct (pdf_to_images_complete E (content uploaded_pdf) (lower output_format)
              dpi w d Ho Hov Hs Hpages) as (images & Hrun & Hall).
  assert (Hn : List.length images = doc_len E d)
    by (rewrite <- (Forall2_length Hall); apply length_seq).
  rewrite tab1_eq, Hrun.
  destruct images as [|entry others]; [cbn in Hn; lia|].
  exists (entry :: others), (preview 0 (firstn 5 (entry :: others))).
  rewrite Hn. split; [reflexivity|]. split; [reflexivity|].
  now rewrite preview_length, length_firstn, Hn.
Qed.

End MoreTab1.

(** ** Last properties of the two functions and of the first tab *)

Section MoreEdges.
Variable E : Env.
Variable splitext : string -> string * string.
Implicit Types (w : World E) (d : Document E).

Lemma readable_by_content (files files' : list UploadedFile) :
  map content files = map content files' ->
  readable (E:=E) files = readable files'.
Proof.
  revert files'. induction files as [|f fs IH]; intros [|f' fs'] H;
    try discriminate; [reflexivity|].
  cbn in H. injection H as Hc H.
  cbn. unfold read_image. rewrite Hc.
  destruct (bindR (Image_open E (content f')) _); now rewrite (IH fs').
Qed.

(** X21.  An unsupported format on a document with at least one page, when
    the division of line 33 returns, never gives a list, and the first page alone decides what is shown: the
    unsupported-format error when it renders, the processing error with the
    exception of the rendering when it does not. *)
Theorem pdf_to_images_unsupported_first_page pdf_bytes output_format dpi w d :
  fitz_open E pdf_bytes = Ok d ->
  0 < doc_len E d ->
  division_overflows dpi = false ->
  supported output_format = false ->
  returned (pdf_to_images pdf_bytes output_format dpi w) = Ok None /\
  match render_page d (zoom_matrix_of dpi) 0 with
  | Ok _ =>
      page_after (pdf_to_images pdf_bytes output_format dpi w)
      = ui w ++ [st_error (UnsupportedFormat output_format)]
  | Raise e =>
      page_after (pdf_to_images pdf_bytes output_format dpi w)
      = ui w ++ [st_error (PdfProcessingFailed e)]
  end.
Proof.
  intros Ho Hlen Hov Hs. rewrite (pdf_to_images_opened _ _ _ _ _ _ Ho Hov).
  destruct (doc_len E d) as [|k]; [lia|].
  cbn [seq]. rewrite for_pages_cons, convert_page_eq, Hs.
  destruct (render_page d (zoom_matrix_of dpi) 0); split; reflexivity.
Qed.

(** X22.  The names of the files do not reach the PDF: two lists of files
    with the same contents, in the same order, give the same value,
    whatever their names, the output name and the page. *)
Theorem images_to_pdf_value_by_content (files files' : list UploadedFile)
    output_filename output_filename' w w' :
  map content files = map content files' ->
  returned (images_to_pdf files output_filename w)
  = returned (images_to_pdf files' output_filename' w').
Proof.
  intros Hc. rewrite !images_to_pdf_eq.
  pose proof (readable_by_content _ _ Hc) as Hr.
  destruct files as [|f fs], files' as [|f' fs']; try discriminate;
    [reflexivity|].
  cbv zeta. rewrite Hr.
  destruct (readable (f' :: fs')) as [|first others]; [reflexivity|].
  destruct (save_pdf_raises E (first :: others)); reflexivity.
Qed.

(** X23.  With one of the two formats the tab offers, a conversion that
    returns [None] shows two errors: the processing error of
    [pdf_to_images], with the text of the exception, and then the
    conversion-failed error of the tab, which is all the tab shows. *)
Theorem tab1_failure_shows_two_errors (uploaded_pdf : UploadedFile)
    output_format dpi w :
  output_format = "PNG" \/ output_format = "JPG" ->
  returned (pdf_to_images (content uploaded_pdf) (lower output_format) dpi w)
  = Ok None ->
  returned (tab1 splitext true (Some uploaded_pdf) output_format dpi w)
  = Ok [t1_error] /\
  exists e,
    page_after (tab1 splitext true (Some uploaded_pdf) output_format dpi w)
    = ui w ++ [st_error (PdfProcessingFailed e)].
Proof.
  intros Hradio.
  assert (Hs : supported (lower output_format) = true)
    by (destruct Hradio as [-> | ->]; reflexivity).
  rewrite tab1_eq.
  destruct (pdf_to_images_supported_reports E (content uploaded_pdf)
              (lower output_format) dpi w Hs) as ([images|] & w' & -> & Hw);
    [discriminate|].
  intros _. split; [reflexivity | exact Hw].
Qed.

End MoreEdges.

(** ** More runs in the small environment *)

Module MoreRuns.

Import Byte.
Import Demo.
Import DemoTab1.

Lemma pdf_to_images_open_failure_witness :
  returned (pdf_to_images (E:=env) not_a_pdf "png" 200 start) = Ok None /\
  page_after (pdf_to_images (E:=env) not_a_pdf "png" 200 start)
  = ui start ++ [st_error (PdfProcessingFailed "Failed to open stream")] /\
  handles_after (pdf_to_images (E:=env) not_a_pdf "png" 200 start)
  = open_documents start.
Proof.
  apply (pdf_to_images_open_failure env not_a_pdf "png" 200 start
           "Failed to open stream").
  reflexivity.
Defined.

Lemma pdf_to_images_no_page_witness :
  pdf_to_images (E:=env) no_page "gif" 200 start = (Ok (Some []), start) /\
  pdf_to_images (E:=env) no_page "gif" (72 * 2 ^ 1024) start
  = (Ok None,
     shown (opened start) (st_error (PdfProcessingFailed OverflowError))).
Proof.
  split.
  - apply (pdf_to_images_no_page env no_page "gif" 200 start []); reflexivity.
  - apply (pdf_to_images_no_page env no_page "gif" (72 * 2 ^ 1024) start []);
      reflexivity.
Defined.

Lemma pdf_to_images_first_failure_witness :
  returned (pdf_to_images (E:=env) broken_second_page "png" 200 start) = Ok None /\
  page_after (pdf_to_images (E:=env) broken_second_page "png" 200 start)
  = ui start ++ [st_error (PdfProcessingFailed "cannot render page")].
Proof.
  apply (pdf_to_images_first_failure env broken_second_page "png" 200 start
           [x41; x00; x43] 1 "cannot render page").
  - reflexivity.
  - reflexivity.
  - reflexivity.
  - cbn. lia.
  - intros [|m] Hm; [reflexivity | lia].
  - reflexivity.
Defined.

Lemma pdf_to_images_names_distinct_witness :
  NoDup ["page_1.png"; "page_2.png"; "page_3.png"].
Proof.
  apply (pdf_to_images_names_distinct env three_pages "png" 200 start
           [("page_1.png", [x01; x41; x41; x41]);
            ("page_2.png", [x01; x42; x42; x42]);
            ("page_3.png", [x01; x43; x43; x43])] start).
  reflexivity.
Defined.

Lemma pdf_to_images_success_is_clean_witness :
  start = start /\
  exists d, fitz_open env three_pages = Ok d /\
            List.length [("page_1.jpg", [x01; x41; x41; x41]);
                         ("page_2.jpg", [x01; x42; x42; x42]);
                         ("page_3.jpg", [x01; x43; x43; x43])]
            = doc_len env d.
Proof.
  apply (pdf_to_images_success_is_clean env three_pages "jpg" 200 start).
  reflexivity.
Defined.

Lemma pdf_to_images_supported_failure_witness :
  exists e,
    page_after (pdf_to_images (E:=env) broken_second_page "JPG" 200 start)
    = ui start ++ [st_error (PdfProcessingFailed e)].
Proof.
  apply (pdf_to_images_supported_failure env broken_second_page "JPG" 200 start);
    reflexivity.
Defined.

Lemma images_to_pdf_accounts_for_every_file_witness :
  errors (page_after (images_to_pdf (E:=env)
    [upload "a.png" [x01; x0a]; upload "b.png" [x00];
     upload "anim.png" [x01; xff; x0c; x0d]]
    "out.pdf" start))
  = errors (ui start)
    ++ unreadable env
         [upload "a.png" [x01; x0a]; upload "b.png" [x00];
          upload "anim.png" [x01; xff; x0c; x0d]] /\
  pdf_pages (Build_PdfFile env 100
               [("RGB", [x0a]); ("RGB", [x0c]); ("RGB", [x0d])])
  = flat_map (img_frames env)
      (readable [upload "a.png" [x01; x0a]; upload "b.png" [x00];
                 upload "anim.png" [x01; xff; x0c; x0d]]) /\
  List.length (readable (E:=env)
                 [upload "a.png" [x01; x0a]; upload "b.png" [x00];
                  upload "anim.png" [x01; xff; x0c; x0d]])
  + List.length (unreadable env
                   [upload "a.png" [x01; x0a]; upload "b.png" [x00];
                    upload "anim.png" [x01; xff; x0c; x0d]])
  = 3 /\
  pdf_resolution (Build_PdfFile env 100
                    [("RGB", [x0a]); ("RGB", [x0c]); ("RGB", [x0d])])
  = 100%Q.
Proof.
  apply (images_to_pdf_accounts_for_every_file env
           [upload "a.png" [x01; x0a]; upload "b.png" [x00];
            upload "anim.png" [x01; xff; x0c; x0d]] "out.pdf" start
           (Build_PdfFile env 100
              [("RGB", [x0a]); ("RGB", [x0c]); ("RGB", [x0d])])).
  reflexivity.
Defined.

Lemma images_to_pdf_nothing_readable_witness :
  returned (images_to_pdf (E:=env)
              [upload "a.png" [x00]; upload "b.png" []] "out.pdf" start)
  = Ok None /\
  page_after (images_to_pdf (E:=env)
                [upload "a.png" [x00]; upload "b.png" []] "out.pdf" start)
  = ui start
    ++ map st_error (unreadable env [upload "a.png" [x00]; upload "b.png" []])
    ++ [st_error NoImageRead] /\
  List.length (unreadable env [upload "a.png" [x00]; upload "b.png" []]) = 2.
Proof.
  apply (images_to_pdf_nothing_readable env
           [upload "a.png" [x00]; upload "b.png" []] "out.pdf" start).
  - discriminate.
  - reflexivity.
Defined.

Lemma demo_convert_mode (img0 : Image env) (mode : string) (img' : Image env) :
  img_convert env img0 mode = Ok img' -> img_mode env img' = mode.
Proof. cbn. unfold d_convert. now intros [= <-]. Qed.

Lemma images_to_pdf_pages_not_rgba_p_l_witness :
  Forall (fun img : Image env =>
            img_mode env img <> "RGBA" /\ img_mode env img <> "P" /\
            img_mode env img <> "L")
         (pdf_pages (Build_PdfFile env 100
                       [("RGB", [x0a]); ("RGB", [x0b]); ("RGB", [x0c]);
                        ("RGB", [x0d])])).
Proof.
  apply (proj2 (proj2
           (images_to_pdf_pages_not_rgba_p_l env
              [upload "a.png" [x02; x0a]; upload "b.png" [x03; x0b];
               upload "anim.png" [x01; xff; x0c; x0d]] "out.pdf" start
              (Build_PdfFile env 100
                 [("RGB", [x0a]); ("RGB", [x0b]); ("RGB", [x0c]);
                  ("RGB", [x0d])])
              demo_convert_mode eq_refl))).
  intros img frame Himg Hframe. cbn in Himg.
  destruct Himg as [<- | [<- | [<- | []]]]; cbn in Hframe.
  - destruct Hframe as [<- | []]. reflexivity.
  - destruct Hframe as [<- | []]. reflexivity.
  - destruct Hframe as [<- | [<- | []]]; reflexivity.
Defined.

Lemma images_to_pdf_conversion_raises_witness :
  returned (images_to_pdf (E:=strict_env) [upload "p.png" [x03; x0a]]
              "out.pdf" strict_start) = Ok None /\
  page_after (images_to_pdf (E:=strict_env) [upload "p.png" [x03; x0a]]
                "out.pdf" strict_start)
  = ui strict_start
    ++ [st_error (CannotReadImage "p.png" "cannot convert palette image");
        st_error NoImageRead].
Proof.
  apply (images_to_pdf_conversion_raises strict_env
           (upload "p.png" [x03; x0a]) "out.pdf" strict_start ("P", [x0a])).
  - reflexivity.
  - right. left. reflexivity.
  - reflexivity.
Defined.

Lemma images_to_pdf_pages_append_witness :
  pdf_pages (Build_PdfFile env 100 [("RGB", [x0a]); ("LA", [x0c])])
  = pdf_pages (Build_PdfFile env 100 [("RGB", [x0a])])
    ++ pdf_pages (Build_PdfFile env 100 [("LA", [x0c])]).
Proof.
  apply (images_to_pdf_pages_append env
           [upload "a.png" [x01; x0a]] [upload "c.png" [x05; x0c]]
           "one.pdf" "two.pdf" "both.pdf" start start start);
    reflexivity.
Defined.

Lemma sort_by_name_sorted_input_witness :
  sort_by_name [upload "a.png" [x01]; upload "a.png" [x02]; upload "b.png" [x03]]
  = [upload "a.png" [x01]; upload "a.png" [x02]; upload "b.png" [x03]].
Proof.
  apply sort_by_name_sorted_input.
  repeat constructor.
Defined.

Lemma tab2_shows_witness :
  returned (tab2 (E:=env) true
              [upload "b.png" [x01; x0b]; upload "a.png" [x00]] "out.pdf" start)
  = Ok tt /\
  exists rest,
    page_after (tab2 (E:=env) true
                  [upload "b.png" [x01; x0b]; upload "a.png" [x00]]
                  "out.pdf" start)
    = ui start
      ++ [st_info (PreparingMerge 2);
          st_write MergeOrderHeading;
          st_json (map name (sort_by_name
                     [upload "b.png" [x01; x0b]; upload "a.png" [x00]]))]
      ++ map st_error (unreadable env (sort_by_name
                     [upload "b.png" [x01; x0b]; upload "a.png" [x00]]))
      ++ rest /\
    (rest = [st_success MergeSucceeded;
             st_download_button
               {| pdf_resolution := 100;
                  pdf_pages := flat_map (img_frames env) (readable (sort_by_name
                     [upload "b.png" [x01; x0b]; upload "a.png" [x00]])) |}
               "out.pdf"]
     \/ rest = [st_error NoImageRead; st_error MergeFailed]
     \/ exists e, rest = [st_error (MergeRaised e); st_error MergeFailed]).
Proof.
  apply (tab2_shows env [upload "b.png" [x01; x0b]; upload "a.png" [x00]]
           "out.pdf" start).
  discriminate.
Defined.

Example tab2_lists_unreadable_upload :
  page_after (tab2 (E:=env) true
                [upload "b.png" [x01; x0b]; upload "a.png" [x00]]
                "out.pdf" start)
  = [st_info (PreparingMerge 2);
     st_write MergeOrderHeading;
     st_json ["a.png"; "b.png"];
     st_error (CannotReadImage "a.png" "cannot identify image file");
     st_success MergeSucceeded;
     st_download_button (Build_PdfFile env 100 [("RGB", [x0b])]) "out.pdf"].
Proof. reflexivity. Qed.

Lemma tab1_never_shows_unsupported_format_witness :
  exists calls,
    page_after (tab1 (E:=env) splitext true (Some report) "PNG" 200 start)
    = ui start ++ calls /\
    forall refused, ~ In (st_error (UnsupportedFormat refused)) calls.
Proof.
  apply (tab1_never_shows_unsupported_format env splitext true (Some report)
           "PNG" 200 start).
  now left.
Defined.

Lemma tab1_no_page_witness :
  tab1 (E:=env) splitext true (Some empty_pdf) "PNG" 200 start
  = (Ok [t1_error], start).
Proof.
  apply (tab1_no_page env splitext empty_pdf "PNG" 200 start []); reflexivity.
Defined.

Lemma tab1_success_witness :
  exists previews,
    tab1 (E:=env) splitext true (Some report) "PNG" 200 start
    = (Ok ([t1_success 3;
            t1_download_button "PNG"
              [("page_1.png", [x01; x41; x41; x41]);
               ("page_2.png", [x01; x42; x42; x42]);
               ("page_3.png", [x01; x43; x43; x43])]
              "report_images.zip";
            t1_subheader;
            t1_columns 5] ++ previews), start) /\
    List.length previews = 3 /\
    forall i filename img_bytes,
      i < 5 ->
      nth_error [("page_1.png", [x01; x41; x41; x41]);
                 ("page_2.png", [x01; x42; x42; x42]);
                 ("page_3.png", [x01; x43; x43; x43])] i
      = Some (filename, img_bytes) ->
      nth_error previews i = Some (t1_image i img_bytes filename).
Proof.
  apply (tab1_success env splitext report "PNG" 200 start
           [("page_1.png", [x01; x41; x41; x41]);
            ("page_2.png", [x01; x42; x42; x42]);
            ("page_3.png", [x01; x43; x43; x43])] start).
  - reflexivity.
  - discriminate.
Defined.

Lemma tab1_converts_document_witness :
  exists images previews,
    tab1 (E:=env) splitext true (Some seven_pages) "JPG" 300 start
    = (Ok ([t1_success 7;
            t1_download_button "JPG" images "long_images.zip";
            t1_subheader;
            t1_columns 5] ++ previews), start) /\
    List.length images = 7 /\
    List.length previews = 5.
Proof.
  apply (tab1_converts_document env splitext seven_pages "JPG" 300 start
           [x41; x42; x43; x44; x45; x46; x47]).
  - reflexivity.
  - cbn. lia.
  - reflexivity.
  - now right.
  - intros n Hn. cbn in Hn.
    destruct n as [|[|[|[|[|[|[|n]]]]]]]; [reflexivity.. | lia].
Defined.

Lemma pdf_to_images_unsupported_first_page_witness :
  returned (pdf_to_images (E:=env) broken_first_page "gif" 200 start) = Ok None /\
  match render_page (E:=env) [x00; x41] (zoom_matrix_of 200) 0 with
  | Ok _ =>
      page_after (pdf_to_images (E:=env) broken_first_page "gif" 200 start)
      = ui start ++ [st_error (UnsupportedFormat "gif")]
  | Raise e =>
      page_after (pdf_to_images (E:=env) broken_first_page "gif" 200 start)
      = ui start ++ [st_error (PdfProcessingFailed e)]
  end.
Proof.
  apply (pdf_to_images_unsupported_first_page env broken_first_page "gif" 200
           start [x00; x41]).
  - reflexivity.
  - cbn. lia.
  - reflexivity.
  - reflexivity.
Defined.

Lemma images_to_pdf_value_by_content_witness :
  returned (images_to_pdf (E:=env)
              [upload "b.png" [x01; x0b]; upload "a.png" [x02; x0a]]
              "one.pdf" start)
  = returned (images_to_pdf (E:=env)
                [upload "1.jpg" [x01; x0b]; upload "2.jpg" [x02; x0a]]
                "two.pdf" start).
Proof.
  apply (images_to_pdf_value_by_content env
           [upload "b.png" [x01; x0b]; upload "a.png" [x02; x0a]]
           [upload "1.jpg" [x01; x0b]; upload "2.jpg" [x02; x0a]]).
  reflexivity.
Defined.

Lemma tab1_failure_shows_two_errors_witness :
  returned (tab1 (E:=env) splitext true
              (Some (upload "notes.pdf" not_a_pdf)) "JPG" 200 start)
  = Ok [t1_error] /\
  exists e,
    page_after (tab1 (E:=env) splitext true
                  (Some (upload "notes.pdf" not_a_pdf)) "JPG" 200 start)
    = ui start ++ [st_error (PdfProcessingFailed e)].
Proof.
  apply (tab1_failure_shows_two_errors env splitext
           (upload "notes.pdf" not_a_pdf) "JPG" 200 start).
  - now right.
  - reflexivity.
Defined.

Example splitext_examples :
  map splitext ["report.pdf"; ".hidden.pdf"; ".bashrc"; "scans/2024.d/a.tar.gz";
                "noext"; "a/b.c/d"]
  = [("report", ".pdf"); (".hidden", ".pdf"); (".bashrc", "");
     ("scans/2024.d/a.tar", ".gz"); ("noext", ""); ("a/b.c/d", "")].
Proof. reflexivity. Qed.

End MoreRuns.
